(** * simple-test-app: record store and self-updater

    A shallow embedding of [src/main.py] (class [Database]) and
    [src/update_utils.py] (backup / restore manager, update checker and
    update installer), with the properties of the specification stated
    and settled against it.

    Layout: the Python library primitives the two modules call
    ([Py], [Posixpath], [Json], [FS]), then the two source modules
    ([Main], [UpdateUtils]), then the theorems. *)

From Stdlib Require Import ZArith Ascii DecimalString.
From Stdlib.Strings Require Byte.
From stdpp Require Import gmap strings list sorting.

Local Open Scope Z_scope.

(* ------------------------------------------------------------------ *)
(** ** Python [str] methods used by the sources *)
(* ------------------------------------------------------------------ *)

Module Py.

(** [c in chars] for a one-character string [c]. *)
Fixpoint char_in (c : ascii) (chars : string) : bool :=
  match chars with
  | EmptyString => false
  | String a rest => Ascii.eqb a c || char_in c rest
  end.

(** [s.lstrip(chars)]: drops every leading character that belongs to
    [chars], not only the first one. *)
Fixpoint lstrip (chars : string) (s : string) : string :=
  match s with
  | EmptyString => EmptyString
  | String a rest => if char_in a chars then lstrip chars rest else s
  end.

(** [s.rstrip(chars)]. *)
Fixpoint rstrip (chars : string) (s : string) : string :=
  match s with
  | EmptyString => EmptyString
  | String a rest =>
      match rstrip chars rest with
      | EmptyString => if char_in a chars then EmptyString else String a EmptyString
      | r => String a r
      end
  end.

(** [s.startswith(pre)] and [s.endswith(suf)]. *)
Fixpoint startswith (s pre : string) {struct pre} : bool :=
  match pre with
  | EmptyString => true
  | String a pre' =>
      match s with
      | EmptyString => false
      | String b s' => Ascii.eqb a b && startswith s' pre'
      end
  end.

Fixpoint endswith (s suf : string) : bool :=
  String.eqb s suf
  || match s with
     | EmptyString => false
     | String _ rest => endswith rest suf
     end.

(** Truth value of a string: [bool(s)]. *)
Definition truthy_str (s : string) : bool := negb (String.eqb s "").

(** [str(n)] for an integer. *)
Definition str_of_Z (z : Z) : string := NilZero.string_of_int (Z.to_int z).

(** [repr] of a list of strings, as in ['sudo', 'bash', '/tmp/x']
    (strings without quote characters). *)
Fixpoint repr_items (l : list string) : string :=
  match l with
  | [] => ""
  | [x] => "'" +:+ x +:+ "'"
  | x :: rest => "'" +:+ x +:+ "', " +:+ repr_items rest
  end.

Definition repr_list (l : list string) : string := "[" +:+ repr_items l +:+ "]".

End Py.

(* ------------------------------------------------------------------ *)
(** ** [os.path] on a POSIX system *)
(* ------------------------------------------------------------------ *)

Module Posixpath.

Definition sep : string := "/".

(** One step of [posixpath.join]: an absolute component replaces the
    path built so far; otherwise it is appended, with a separator
    unless the path is empty or already ends with one. *)
Definition join2 (path b : string) : string :=
  if Py.startswith b sep then b
  else if String.eqb path "" || Py.endswith path sep then path +:+ b
  else path +:+ sep +:+ b.

(** [os.path.join(a, *p)]. *)
Definition join (a : string) (p : list string) : string := foldl join2 a p.

(** [p[:i], p[i:]] with [i = p.rfind('/') + 1]. *)
Fixpoint cut_last_sep (p : string) : string * string :=
  match p with
  | EmptyString => (EmptyString, EmptyString)
  | String a rest =>
      let '(h, t) := cut_last_sep rest in
      match h with
      | EmptyString =>
          if Ascii.eqb a "/" then (String a EmptyString, t)
          else (EmptyString, String a t)
      | _ => (String a h, t)
      end
  end.

Fixpoint all_sep (s : string) : bool :=
  match s with
  | EmptyString => true
  | String a rest => Ascii.eqb a "/" && all_sep rest
  end.

(** [os.path.split(p)]. *)
Definition split (p : string) : string * string :=
  let '(head, tail) := cut_last_sep p in
  if Py.truthy_str head && negb (all_sep head)
  then (Py.rstrip sep head, tail)
  else (head, tail).

Definition dirname (p : string) : string := fst (split p).
Definition basename (p : string) : string := snd (cut_last_sep p).

End Posixpath.

(* ------------------------------------------------------------------ *)
(** ** Exceptions and results *)
(* ------------------------------------------------------------------ *)

(** The exceptions the modelled calls can raise.  All of them are
    subclasses of [Exception]; the first five are [OSError]s. *)
Inductive exn :=
| FileExistsError (path : string)
| FileNotFoundError (path : string)
| IsADirectoryError (path : string)
| NotADirectoryError (path : string)
| SameFileError (src dst : string)
| RecursionError
| RequestException (what : string)
| HTTPError (status : Z)
| JSONDecodeError
| AttributeError (what : string)
| TypeError (what : string)
| KeyError (key : string)
| CalledProcessError (cmd : list string) (returncode : Z).

(** [str(e)], the text an f-string [{e}] shows. *)
Definition exn_str (e : exn) : string :=
  match e with
  | FileExistsError p => "[Errno 17] File exists: '" +:+ p +:+ "'"
  | FileNotFoundError p => "[Errno 2] No such file or directory: '" +:+ p +:+ "'"
  | IsADirectoryError p => "[Errno 21] Is a directory: '" +:+ p +:+ "'"
  | NotADirectoryError p => "[Errno 20] Not a directory: '" +:+ p +:+ "'"
  | SameFileError a b => "'" +:+ a +:+ "' and '" +:+ b +:+ "' are the same file"
  | RecursionError => "maximum recursion depth exceeded"
  | RequestException what => what
  | HTTPError status => Py.str_of_Z status +:+ " Error"
  | JSONDecodeError => "Expecting value: line 1 column 1 (char 0)"
  | AttributeError what => what
  | TypeError what => what
  | KeyError k => "'" +:+ k +:+ "'"
  | CalledProcessError cmd rc =>
      "Command '" +:+ Py.repr_list cmd +:+ "' returned non-zero exit status "
      +:+ Py.str_of_Z rc +:+ "."
  end.

Definition is_FileExistsError (e : exn) : bool :=
  match e with FileExistsError _ => true | _ => false end.

(** A call either returns a value or raises. *)
Inductive result (A : Type) :=
| Ok (a : A)
| Raise (e : exn).
Arguments Ok {A} a.
Arguments Raise {A} e.

(* ------------------------------------------------------------------ *)
(** ** Parsed JSON, and the Python operations applied to it *)
(* ------------------------------------------------------------------ *)

Module Json.

(** What [response.json()] returns: [None], [bool], [int], [str],
    [list] or [dict] (a [dict] as its items in order, keys unique). *)
#[warnings="-register-all"]
Inductive json :=
| JNull
| JBool (b : bool)
| JNum (n : Z)
| JStr (s : string)
| JList (items : list json)
| JDict (fields : list (string * json)).

Definition type_name (v : json) : string :=
  match v with
  | JNull => "NoneType"
  | JBool _ => "bool"
  | JNum _ => "int"
  | JStr _ => "str"
  | JList _ => "list"
  | JDict _ => "dict"
  end.

Definition no_attribute (v : json) (attr : string) : exn :=
  AttributeError ("'" +:+ type_name v +:+ "' object has no attribute '" +:+ attr +:+ "'").

Fixpoint lookup_field (key : string) (fields : list (string * json)) : option json :=
  match fields with
  | [] => None
  | (k, v) :: rest => if String.eqb k key then Some v else lookup_field key rest
  end.

(** [v.get(key, default)]. *)
Definition get (v : json) (key : string) (default : json) : result json :=
  match v with
  | JDict fields =>
      match lookup_field key fields with
      | Some x => Ok x
      | None => Ok default
      end
  | _ => Raise (no_attribute v "get")
  end.

(** [v.lstrip(chars)] and [v.endswith(suffix)]. *)
Definition lstrip (v : json) (chars : string) : result string :=
  match v with
  | JStr s => Ok (Py.lstrip chars s)
  | _ => Raise (no_attribute v "lstrip")
  end.

Definition endswith (v : json) (suffix : string) : result bool :=
  match v with
  | JStr s => Ok (Py.endswith s suffix)
  | _ => Raise (no_attribute v "endswith")
  end.

(** [v[key]] for a string [key]. *)
Definition getitem (v : json) (key : string) : result json :=
  match v with
  | JDict fields =>
      match lookup_field key fields with
      | Some x => Ok x
      | None => Raise (KeyError key)
      end
  | JList _ => Raise (TypeError "list indices must be integers or slices, not str")
  | JStr _ => Raise (TypeError "string indices must be integers, not 'str'")
  | _ => Raise (TypeError ("'" +:+ type_name v +:+ "' object is not subscriptable"))
  end.

Fixpoint chars (s : string) : list json :=
  match s with
  | EmptyString => []
  | String a rest => JStr (String a EmptyString) :: chars rest
  end.

(** The items a [for] loop over [v] visits. *)
Definition iter (v : json) : result (list json) :=
  match v with
  | JList items => Ok items
  | JDict fields => Ok (map (λ kv, JStr (fst kv)) fields)
  | JStr s => Ok (chars s)
  | _ => Raise (TypeError ("'" +:+ type_name v +:+ "' object is not iterable"))
  end.

(** [bool(v)]. *)
Definition truthy (v : json) : bool :=
  match v with
  | JNull => false
  | JBool b => b
  | JNum n => negb (n =? 0)
  | JStr s => Py.truthy_str s
  | JList items => match items with [] => false | _ => true end
  | JDict fields => match fields with [] => false | _ => true end
  end.

End Json.

(* ------------------------------------------------------------------ *)
(** ** The file system: [os], [os.path] and [shutil] calls *)
(* ------------------------------------------------------------------ *)

Module FS.

(** A path names a regular file with its bytes, or a directory. *)
Inductive node :=
| File (content : list Byte.byte)
| Dir.

Abbreviation fs := (gmap string node).

(** [os.path.exists(p)] and [os.path.isdir(p)]. *)
Definition exists_ (m : fs) (p : string) : bool :=
  match m !! p with Some _ => true | None => false end.

Definition isdir (m : fs) (p : string) : bool :=
  match m !! p with Some Dir => true | _ => false end.

(** Whether an entry may be created at [p]: its parent is a
    directory.  A path without a directory part is relative to the
    current directory, which exists. *)
Definition parent_check (m : fs) (p : string) : result unit :=
  let d := Posixpath.dirname p in
  if String.eqb d "" then Ok tt
  else match m !! d with
       | Some Dir => Ok tt
       | Some (File _) => Raise (NotADirectoryError p)
       | None => Raise (FileNotFoundError p)
       end.

(** [os.mkdir(p)]. *)
Definition mkdir (p : string) (m : fs) : result unit * fs :=
  match m !! p with
  | Some _ => (Raise (FileExistsError p), m)
  | None =>
      match parent_check m p with
      | Ok _ => (Ok tt, <[p := Dir]> m)
      | Raise e => (Raise e, m)
      end
  end.

(** The last lines of [os.makedirs]: [mkdir], whose [OSError] is
    swallowed when [exist_ok] holds and the path is a directory. *)
Definition mkdir_leaf (name : string) (exist_ok : bool) (m : fs) : result unit * fs :=
  match mkdir name m with
  | (Raise e, m') =>
      if negb exist_ok || negb (isdir m' name) then (Raise e, m') else (Ok tt, m')
  | r => r
  end.

(** [os.makedirs(name, exist_ok=exist_ok)].  The recursion of the
    library function goes to the parent path, which is shorter; the
    model counts it down from the length of the path. *)
Fixpoint makedirs_rec (depth : nat) (name : string) (exist_ok : bool) (m : fs)
  : result unit * fs :=
  match depth with
  | O => (Raise RecursionError, m)
  | S depth' =>
      let '(head, tail) := Posixpath.split name in
      let '(head, tail) :=
        if String.eqb tail "" then Posixpath.split head else (head, tail) in
      if Py.truthy_str head && Py.truthy_str tail && negb (exists_ m head) then
        match makedirs_rec depth' head exist_ok m with
        | (Raise e, m') =>
            if is_FileExistsError e then
              if String.eqb tail "." then (Ok tt, m') else mkdir_leaf name exist_ok m'
            else (Raise e, m')
        | (Ok _, m') =>
            if String.eqb tail "." then (Ok tt, m') else mkdir_leaf name exist_ok m'
        end
      else mkdir_leaf name exist_ok m
  end.

Definition makedirs (name : string) (exist_ok : bool) (m : fs) : result unit * fs :=
  makedirs_rec (S (String.length name)) name exist_ok m.

(** [open(p, "wb")] followed by writing [content] and closing. *)
Definition write_file (p : string) (content : list Byte.byte) (m : fs)
  : result unit * fs :=
  match m !! p with
  | Some Dir => (Raise (IsADirectoryError p), m)
  | _ =>
      match parent_check m p with
      | Ok _ => (Ok tt, <[p := File content]> m)
      | Raise e => (Raise e, m)
      end
  end.

(** [shutil.copy2(src, dst)]: a directory as destination stands for
    the file of the same name inside it; source and destination must
    not be the same file; the bytes of [src] replace those of [dst].
    The metadata [copystat] carries over is not part of the model. *)
Definition copy2 (src dst : string) (m : fs) : result string * fs :=
  let dst := if isdir m dst then Posixpath.join dst [Posixpath.basename src] else dst in
  if String.eqb src dst then (Raise (SameFileError src dst), m)
  else match m !! src with
       | None => (Raise (FileNotFoundError src), m)
       | Some Dir => (Raise (IsADirectoryError src), m)
       | Some (File content) =>
           match write_file dst content m with
           | (Ok _, m') => (Ok dst, m')
           | (Raise e, m') => (Raise e, m')
           end
       end.

End FS.

(* ------------------------------------------------------------------ *)
(** ** The process environment both modules read *)
(* ------------------------------------------------------------------ *)

Record Env := {
  (** [os.path.expanduser("~")] *)
  home_dir : string;
  (** [getattr(sys, 'frozen', False)] *)
  sys_frozen : bool;
  (** [sys.executable] *)
  sys_executable : string;
  (** [os.path.abspath(__file__)] of [update_utils.py] *)
  update_utils_file : string
}.

(** What the program shows: lines on standard output and the dialogs
    of [tkinter.messagebox], in the order they happen. *)
Inductive event :=
| Print (line : string)
| ShowError (title message : string)
| ShowInfo (title message : string)
| AskYesNo (title message : string)
| Sleep (seconds : Z)
| Run (cmd : list string).

(** A directory as [os.walk] meets it: its name, the names of its
    files and its subdirectories, in the order [scandir] lists them. *)
#[warnings="-register-all"]
Inductive dtree :=
| DNode (name : string) (files : list string) (subdirs : list dtree).

(** The state the updater works on.  The extraction directory
    [/tmp/simple-test-app-update] is kept as a tree of its own, because
    [os.walk] needs its structure; everything else lives in [w_fs].
    The home directory and the application directory are taken not to
    lie under the extraction directory. *)
Record World := {
  w_fs : gmap string FS.node;
  w_extract : option dtree;
  w_log : list event
}.

Definition log (ev : event) (w : World) : World :=
  {| w_fs := w_fs w; w_extract := w_extract w; w_log := w_log w ++ [ev] |}.

Definition set_fs (m : gmap string FS.node) (w : World) : World :=
  {| w_fs := m; w_extract := w_extract w; w_log := w_log w |}.

Definition set_extract (t : option dtree) (w : World) : World :=
  {| w_fs := w_fs w; w_extract := t; w_log := w_log w |}.

(** How a call of the updater ends: it returns, or [sys.exit] raises
    [SystemExit], which no [except Exception] handler catches. *)
Inductive outcome :=
| Returned
| SystemExit (code : Z).

(** What lies outside the program: the release server, the user at the
    dialog, and the two subprocesses. *)
Record Externals := {
  (** [requests.get(GITHUB_REPO_API, timeout=5)]: an exception, or the
      status code together with what [response.json()] gives *)
  get_release : result (Z * result Json.json);
  (** the answer to [messagebox.askyesno] *)
  answer_yes : bool;
  (** [requests.get(url, stream=True)]: an exception, or the status
      code, the chunks of the body, and the exception that ends the
      stream early, if any *)
  get_asset : string → result (Z * list (list Byte.byte) * option exn);
  (** [tar -xzf archive -C extract_dir] on the bytes of the archive
      ([None]: no such file): exit status and the content of the
      extraction directory afterwards *)
  run_tar : option (list Byte.byte) → Z * dtree;
  (** [sudo bash script]: exit status and the file system afterwards *)
  run_install : string → gmap string FS.node → Z * gmap string FS.node
}.

(** Computations that read and change the world and may raise. *)
Definition M (A : Type) : Type := World → result A * World.

#[global] Instance M_ret : MRet M := λ A a w, (Ok a, w).

#[global] Instance M_bind : MBind M := λ A B f c w,
  match c w with
  | (Ok a, w') => f a w'
  | (Raise ex, w') => (Raise ex, w')
  end.

Definition say (ev : event) : M unit := λ w, (Ok tt, log ev w).

Definition lift {A} (r : result A) : M A := λ w, (r, w).

Definition on_fs {A} (f : gmap string FS.node → result A * gmap string FS.node) : M A :=
  λ w, let '(r, m) := f (w_fs w) in (r, set_fs m w).

Definition newline : string := String (ascii_of_nat 10) EmptyString.

(* ------------------------------------------------------------------ *)
(** ** [main.py] *)
(* ------------------------------------------------------------------ *)

Module Main.

Definition APP_VERSION : string := "1.0.1".
Definition APP_NAME : string := "SimpleTestApp".

(** The directory and the file [Database.get_db_path] computes. *)
Definition db_dir (e : Env) : string :=
  Posixpath.join (home_dir e) [".simple-test-app"].

Definition db_file (e : Env) : string :=
  Posixpath.join (db_dir e) ["users.db"].

(** [Database.get_db_path()]: makes the directory, returns the path. *)
Definition get_db_path (e : Env) (m : gmap string FS.node)
  : result string * gmap string FS.node :=
  match FS.makedirs (db_dir e) true m with
  | (Ok _, m') => (Ok (db_file e), m')
  | (Raise ex, m') => (Raise ex, m')
  end.

(** A row of the table [users].  [email] has no [NOT NULL]
    constraint: [None] is SQL [NULL]. *)
Record user_row := {
  id : Z;
  username : string;
  password_hash : string;
  email : option string;
  created_at : string
}.

(** The content of the database file: the rows of [users] in rowid
    order and the counter [AUTOINCREMENT] keeps in [sqlite_sequence]. *)
Record Db := {
  users : list user_row;
  users_seq : Z
}.

(** Where a call on the connection raises an [sqlite3.Error] that is
    not a constraint violation (a file that cannot be opened, a locked
    database, a disk error), if anywhere. *)
Inductive sqlite_fault :=
| NoFault
| ConnectFails (msg : string)
| ExecuteFails (msg : string)
| CommitFails (msg : string).

Definition username_taken (db : Db) (name : string) : bool :=
  existsb (λ r, String.eqb (username r) name) (users db).

(** The rowid [AUTOINCREMENT] assigns: one more than the largest ever
    used. *)
Definition next_id (db : Db) : Z :=
  1 + foldr (λ r acc, Z.max (id r) acc) (users_seq db) (users db).

Section Database.
(** [hashlib.sha256(data).hexdigest()] *)
Variable sha256_hexdigest : string → string.

Definition hash_password (password : string) : string :=
  sha256_hexdigest password.

(** [Database.register_user(username, password, email)], run at the
    time [now] ([CURRENT_TIMESTAMP], as [YYYY-MM-DD HH:MM:SS]).
    Nothing is committed on any path that raises. *)
Definition register_user (fault : sqlite_fault) (now : string) (db : Db)
    (name password mail : string) : (bool * string) * Db :=
  match fault with
  | ConnectFails msg | ExecuteFails msg =>
      ((false, "Database error: " +:+ msg), db)
  | _ =>
      if username_taken db name then ((false, "Username already exists!"), db)
      else
        match fault with
        | CommitFails msg => ((false, "Database error: " +:+ msg), db)
        | _ =>
            let row :=
              {| id := next_id db;
                 username := name;
                 password_hash := hash_password password;
                 email := Some mail;
                 created_at := now |} in
            ((true, "User registered successfully!"),
             {| users := users db ++ [row]; users_seq := next_id db |})
        end
  end.

End Database.

(** [ORDER BY created_at DESC]: the rows are compared on the text of
    [created_at], byte by byte; rows with equal keys stay in the order
    of the table scan, as SQLite's sorter leaves them. *)
Fixpoint insert_desc (r : user_row) (sorted : list user_row) : list user_row :=
  match sorted with
  | [] => [r]
  | x :: rest =>
      if String.ltb (created_at r) (created_at x)
      then x :: insert_desc r rest
      else r :: x :: rest
  end.

Definition order_by_created_at_desc (rows : list user_row) : list user_row :=
  foldr insert_desc [] rows.

(** [v or default] for a value that is [None] or a [str]. *)
Definition py_or (v default : option string) : option string :=
  match v with
  | Some s => if Py.truthy_str s then v else default
  | None => default
  end.

(** The tuple [get_users] builds from a row. *)
Definition user_tuple (r : user_row) : string * option string * string :=
  (username r, py_or (email r) (Some ""), created_at r).

(** The number of rows with a given user name. *)
Definition rows_named (name : string) (db : Db) : nat :=
  length (filter (λ r, username r = name) (users db)).

(** Two rows in the order "newest first": the second was not created
    after the first. *)
Definition row_not_older (a b : user_row) : Prop :=
  String.leb (created_at b) (created_at a) = true.

(** The same for the tuples [get_users] returns. *)
Definition not_older (a b : string * option string * string) : Prop :=
  String.leb b.2 a.2 = true.

(** [Database.get_users()]: the list returned and the line printed.
    [fault] is the [sqlite3.Error] raised by the connection, if any. *)
Definition get_users (fault : option string) (db : Db)
  : list (string * option string * string) * string :=
  match fault with
  | None =>
      let result := map user_tuple (order_by_created_at_desc (users db)) in
      (result,
       "Retrieved " +:+ Py.str_of_Z (Z.of_nat (length result))
       +:+ " users from database")
  | Some msg => ([], "Database error in get_users: " +:+ msg)
  end.

(** The two uniqueness constraints of the table [users]. *)
Definition unique_usernames (db : Db) : Prop := NoDup (map username (users db)).
Definition unique_ids (db : Db) : Prop := NoDup (map id (users db)).

(** [a] was created strictly before [b]. *)
Definition strictly_older (a b : user_row) : Prop :=
  String.ltb (created_at a) (created_at b) = true.

(** The database file as a whole: the table [users] and the table
    [app_settings], whose [key] is the primary key and whose [value]
    may be [NULL] ([None]). *)
Record Store := {
  st_db : Db;
  st_settings : gmap string (option string)
}.

(** [Database.init_database()] on the file at [db_path]: the error it
    re-raises, if any, the store afterwards and the line it prints.
    Both [CREATE TABLE IF NOT EXISTS] leave existing rows alone;
    [INSERT OR REPLACE] stores the version under [app_version].
    Nothing is committed when the connection raises. *)
Definition init_database (fault : option string) (db_path : string) (s : Store)
  : option string * Store * string :=
  match fault with
  | Some msg => (Some msg, s, "Database error: " +:+ msg)
  | None =>
      (None,
       {| st_db := st_db s;
          st_settings := <["app_version" := Some APP_VERSION]> (st_settings s) |},
       "Database initialized at: " +:+ db_path)
  end.

(** [Database.get_version()]: the value returned ([None] when the
    stored value is [NULL]) and the line printed, if any. *)
Definition get_version (fault : option string) (s : Store)
  : option string * option string :=
  match fault with
  | Some msg => (Some APP_VERSION, Some ("Database error: " +:+ msg))
  | None =>
      match st_settings s !! "app_version" with
      | Some value => (value, None)
      | None => (Some APP_VERSION, None)
      end
  end.

End Main.

(* ------------------------------------------------------------------ *)
(** ** [update_utils.py] *)
(* ------------------------------------------------------------------ *)

Module UpdateUtils.

Definition GITHUB_REPO_API : string :=
  "https://api.github.com/repos/pahilabs/simple-test-app/releases/latest".
Definition CURRENT_VERSION : string := "1.0.0".

Definition USER_HOME (e : Env) : string := home_dir e.
Definition BACKUP_DIR (e : Env) : string :=
  Posixpath.join (USER_HOME e) [".simple-test-app"; "backup"].
Definition DB_BACKUP_PATH (e : Env) : string :=
  Posixpath.join (BACKUP_DIR e) ["users.db"].

Definition get_db_path (e : Env) : string :=
  let app_dir :=
    if sys_frozen e then Posixpath.dirname (sys_executable e)
    else Posixpath.dirname (update_utils_file e) in
  Posixpath.join app_dir ["data"; "users.db"].

(** [backup_user_data()]: the body of the [try], then the handler. *)
Definition backup_user_data (e : Env) (w : World) : bool * World :=
  match FS.makedirs (BACKUP_DIR e) true (w_fs w) with
  | (Raise ex, m1) =>
      (false, log (Print ("Backup failed: " +:+ exn_str ex)) (set_fs m1 w))
  | (Ok _, m1) =>
      let w1 := set_fs m1 w in
      let db_path := get_db_path e in
      if FS.exists_ m1 db_path then
        match FS.copy2 db_path (DB_BACKUP_PATH e) m1 with
        | (Ok _, m2) =>
            (true, log (Print ("Database backed up to " +:+ DB_BACKUP_PATH e))
                       (set_fs m2 w1))
        | (Raise ex, m2) =>
            (false, log (Print ("Backup failed: " +:+ exn_str ex)) (set_fs m2 w1))
        end
      else (true, log (Print "No database found to backup") w1)
  end.

(** [restore_user_data()]. *)
Definition restore_user_data (e : Env) (w : World) : bool * World :=
  if FS.exists_ (w_fs w) (DB_BACKUP_PATH e) then
    let db_path := get_db_path e in
    match FS.makedirs (Posixpath.dirname db_path) true (w_fs w) with
    | (Raise ex, m1) =>
        (false, log (Print ("Restore failed: " +:+ exn_str ex)) (set_fs m1 w))
    | (Ok _, m1) =>
        match FS.copy2 (DB_BACKUP_PATH e) db_path m1 with
        | (Ok _, m2) =>
            (true, log (Print "Database restored from backup") (set_fs m2 w))
        | (Raise ex, m2) =>
            (false, log (Print ("Restore failed: " +:+ exn_str ex)) (set_fs m2 w))
        end
    end
  else (true, log (Print "No backup found to restore") w).

(** The loop over the assets: the download URL of the first asset
    whose name ends in [.tar.gz], [None] (here [JNull]) without one. *)
Fixpoint find_download_url (assets : list Json.json) : result Json.json :=
  match assets with
  | [] => Ok Json.JNull
  | asset :: rest =>
      match Json.getitem asset "name" with
      | Raise ex => Raise ex
      | Ok name =>
          match Json.endswith name ".tar.gz" with
          | Raise ex => Raise ex
          | Ok true => Json.getitem asset "browser_download_url"
          | Ok false => find_download_url rest
          end
      end
  end.

(** The [with requests.get(...)] block. *)
Definition download (x : Externals) (download_url : Json.json) (download_path : string)
  : M unit :=
  match download_url with
  | Json.JStr url =>
      '(status, chunks, broken) ← lift (get_asset x url);
      if (400 <=? status) && (status <? 600) then lift (Raise (HTTPError status))
      else
        on_fs (FS.write_file download_path (concat chunks));;
        match broken with
        | Some ex => lift (Raise ex)
        | None => mret tt
        end
  | _ => lift (Raise (RequestException "Invalid URL"))
  end.

Definition extract_dir : string := "/tmp/simple-test-app-update".

Definition file_bytes (m : gmap string FS.node) (p : string) : option (list Byte.byte) :=
  match m !! p with
  | Some (FS.File content) => Some content
  | _ => None
  end.

(** [subprocess.run(cmd, check=True)] for the two commands. *)
Definition check_exit (cmd : list string) (rc : Z) : M unit :=
  if rc =? 0 then mret tt else lift (Raise (CalledProcessError cmd rc)).

(** The lines under [# Extract update]. *)
Definition extract (x : Externals) (download_path : string) : M unit :=
  ((λ w, (Ok tt, match w_extract w with
                 | Some _ => set_extract None w
                 | None => w
                 end)) : M unit);;
  ((λ w, (Ok tt, set_extract (Some (DNode "simple-test-app-update" [] [])) w))
   : M unit);;
  let cmd := ["tar"; "-xzf"; download_path; "-C"; extract_dir] in
  say (Run cmd);;
  rc ← (λ w, let '(rc, t) := run_tar x (file_bytes (w_fs w) download_path) in
             (Ok rc, set_extract (Some t) w));
  check_exit cmd rc.

(** [os.walk(top)], top down: a directory, then its subdirectories
    in turn, each with all that lies below it. *)
Fixpoint os_walk (top : string) (t : dtree) : list (string * list string * list string) :=
  match t with
  | DNode _ files subdirs =>
      (top, map (λ d, match d with DNode n _ _ => n end) subdirs, files)
      :: flat_map (λ d, match d with
                        | DNode n _ _ => os_walk (Posixpath.join top [n]) d
                        end) subdirs
  end.

(** The loop over [os.walk(extract_dir)]. *)
Fixpoint find_install_script (entries : list (string * list string * list string))
  : option string :=
  match entries with
  | [] => None
  | (root, _, files) :: rest =>
      if bool_decide ("install.sh" ∈ files)
      then Some (Posixpath.join root ["install.sh"])
      else find_install_script rest
  end.

Definition locate_installer (w : World) : option string :=
  match w_extract w with
  | Some t => find_install_script (os_walk extract_dir t)
  | None => None
  end.

Definition download_path (latest_version : string) : string :=
  Posixpath.join "/tmp" ["simple-test-app-" +:+ latest_version +:+ ".tar.gz"].

(** The steps of [update_application] up to the extraction.  [inl]
    stands for a [return] inside the [try]. *)
Definition fetch_and_extract (x : Externals) (e : Env)
    (latest_version : string) (release_data : Json.json) : M (outcome + unit) :=
  ok ← (λ w, let '(b, w') := backup_user_data e w in (Ok b, w'));
  if negb ok then
    say (ShowError "Update Error" "Failed to backup user data");;
    mret (inl Returned)
  else
    assets ← lift (Json.get release_data "assets" (Json.JList []));
    items ← lift (Json.iter assets);
    download_url ← lift (find_download_url items);
    if negb (Json.truthy download_url) then
      say (ShowError "Update Error" "No update package found");;
      mret (inl Returned)
    else
      say (ShowInfo "Update" "Downloading update...");;
      download x download_url (download_path latest_version);;
      extract x (download_path latest_version);;
      mret (inr tt).

Definition install_cmd (install_script : string) : list string :=
  ["sudo"; "bash"; install_script].

(** The steps from [# Find and run installer] to [sys.exit(0)]. *)
Definition install_and_finish (x : Externals) (e : Env) : M outcome :=
  install_script ← (λ w, (Ok (locate_installer w), w));
  match install_script with
  | Some script =>
      if Py.truthy_str script then
        say (ShowInfo "Update" "Installing update...");;
        say (Run (install_cmd script));;
        rc ← on_fs (λ m, let '(rc, m') := run_install x script m in (Ok rc, m'));
        check_exit (install_cmd script) rc
      else mret tt
  | None => mret tt
  end;;
  say (Sleep 1);;
  (λ w, let '(_, w') := restore_user_data e w in (Ok tt, w'));;
  say (ShowInfo "Update Complete"
         ("Update completed successfully!" +:+ newline
          +:+ "Please restart the application."));;
  mret (SystemExit 0).

Definition update_failed (ex : exn) : string := "Update failed: " +:+ exn_str ex.

(** [update_application(latest_version, release_data)]. *)
Definition update_application (x : Externals) (e : Env)
    (latest_version : string) (release_data : Json.json) (w : World)
  : outcome * World :=
  let body :=
    r ← fetch_and_extract x e latest_version release_data;
    match r with
    | inl o => mret o
    | inr _ => install_and_finish x e
    end in
  match body w with
  | (Ok o, w') => (o, w')
  | (Raise ex, w') =>
      (Returned,
       log (Print (update_failed ex))
         (log (ShowError "Update Error" (update_failed ex)) w'))
  end.

Definition update_prompt (latest_version : string) : string :=
  "A new version (" +:+ latest_version +:+ ") is available." +:+ newline
  +:+ "Current version: " +:+ CURRENT_VERSION +:+ newline +:+ newline
  +:+ "Do you want to update now?".

(** [check_for_new_version()]. *)
Definition check_for_new_version (x : Externals) (e : Env) (w : World)
  : outcome * World :=
  let body : M outcome :=
    '(status_code, parsed) ← lift (get_release x);
    if status_code =? 200 then
      data ← lift parsed;
      tag_name ← lift (Json.get data "tag_name" (Json.JStr ""));
      latest_version ← lift (Json.lstrip tag_name "v");
      if Py.truthy_str latest_version
         && negb (String.eqb latest_version CURRENT_VERSION) then
        say (Print ("New version available: " +:+ latest_version));;
        say (AskYesNo "Update Available" (update_prompt latest_version));;
        if answer_yes x then
          ((λ w, let '(o, w') := update_application x e latest_version data w in
                 (Ok o, w')) : M outcome)
        else mret Returned
      else
        say (Print "You are running the latest version");;
        mret Returned
    else
      say (Print ("Could not check for updates: " +:+ Py.str_of_Z status_code));;
      mret Returned in
  match body w with
  | (Ok o, w') => (o, w')
  | (Raise ex, w') =>
      (Returned, log (Print ("Update check failed: " +:+ exn_str ex)) w')
  end.

End UpdateUtils.

(* ------------------------------------------------------------------ *)
(** ** Predicates on paths and file systems *)
(* ------------------------------------------------------------------ *)

(** [tails_differ n A B]: the last [n] characters of [A] and of [B]
    exist and are not the same. *)
Definition tails_differ (n : nat) (A B : string) : bool :=
  let ra := reverse (String.list_ascii_of_string A) in
  let rb := reverse (String.list_ascii_of_string B) in
  (n <=? length ra)%nat && (n <=? length rb)%nat
  && negb (bool_decide (take n ra = take n rb)).

(** [grows_by_dirs m m']: [m'] has every entry of [m] unchanged, and
    anything new in [m'] is a directory. *)
Definition grows_by_dirs (m m' : gmap string FS.node) : Prop :=
  ∀ p, m' !! p = m !! p ∨ (m !! p = None ∧ m' !! p = Some FS.Dir).


(* ------------------------------------------------------------------ *)
(** ** Reading the log *)
(* ------------------------------------------------------------------ *)

(** The line [restore_user_data] prints: it prints exactly one of
    these on every path, so a log without such a line shows that it
    was not called. *)
Definition restore_line (ev : event) : bool :=
  match ev with
  | Print s =>
      String.eqb s "Database restored from backup"
      || String.eqb s "No backup found to restore"
      || Py.startswith s "Restore failed: "
  | _ => false
  end.

(** The events of the steps that follow the installation: the pause
    and the restore, and the completion dialog. *)
Definition after_install (ev : event) : bool :=
  match ev with
  | Sleep _ => true
  | ShowInfo title _ => String.eqb title "Update Complete"
  | _ => restore_line ev
  end.

(** An event that none of the steps after the installation logs. *)
Definition before_install_only (ev : event) : bool := negb (after_install ev).


(** The world once the installer has been started: the dialog and the
    command are in the log, and the file system is as the script left
    it. *)
Definition installer_ran (script : string) (m' : gmap string FS.node) (w : World) : World :=
  set_fs m' (log (Run (UpdateUtils.install_cmd script))
               (log (ShowInfo "Update" "Installing update...") w)).

(** The world after the last steps of a successful update: the pause,
    the restore and the completion dialog. *)
Definition restored_and_notified (e : Env) (w : World) : World :=
  log (ShowInfo "Update Complete"
         ("Update completed successfully!" +:+ newline
          +:+ "Please restart the application."))
    (snd (UpdateUtils.restore_user_data e (log (Sleep 1) w))).

(** The world after the handler of [update_application] has run. *)
Definition failure_reported (ex : exn) (w : World) : World :=
  log (Print (UpdateUtils.update_failed ex))
    (log (ShowError "Update Error" (UpdateUtils.update_failed ex)) w).

(** A dialog that reports an error. *)
Definition error_dialog (ev : event) : bool :=
  match ev with
  | ShowError _ _ => true
  | _ => false
  end.

(** [appends P c]: whatever [c] does, the log only grows, and by
    events that satisfy [P]. *)
Definition appends {A} (P : event → bool) (c : M A) : Prop :=
  ∀ w r w', c w = (r, w') → ∃ evs, w_log w' = w_log w ++ evs ∧ forallb P evs = true.

(** An event of the steps before the installation that is not an error
    dialog. *)
Definition quiet (ev : event) : bool :=
  before_install_only ev && negb (error_dialog ev).

(** The dialog that ends a successful update. *)
Definition completion_dialog : event :=
  ShowInfo "Update Complete"
    ("Update completed successfully!" +:+ newline
     +:+ "Please restart the application.").

(** An asset the loop of [update_application] passes over: its name is
    a string that does not end in [.tar.gz]. *)
Definition skipped_asset (asset : Json.json) : Prop :=
  ∃ name, Json.getitem asset "name" = Ok (Json.JStr name)
          ∧ Py.endswith name ".tar.gz" = false.

(** An asset the loop stops at. *)
Definition package_asset (asset : Json.json) : Prop :=
  ∃ name, Json.getitem asset "name" = Ok (Json.JStr name)
          ∧ Py.endswith name ".tar.gz" = true.

(* ------------------------------------------------------------------ *)
(** ** The update check as the specification words it *)
(* ------------------------------------------------------------------ *)

Module Spec.

(** "[tag_name] with a leading [v] stripped". *)
Definition strip_leading_v (tag_name : string) : string :=
  match tag_name with
  | String "v" rest => rest
  | _ => tag_name
  end.

(** An update is offered when the stripped tag is not empty and
    differs from the current version. *)
Definition offers_update (tag_name current_version : string) : bool :=
  Py.truthy_str (strip_leading_v tag_name)
  && negb (String.eqb (strip_leading_v tag_name) current_version).

End Spec.

(* ------------------------------------------------------------------ *)
(** ** Concrete states used by the examples *)
(* ------------------------------------------------------------------ *)

Module Samples.

Definition bytes (s : string) : list Byte.byte := String.list_byte_of_string s.

(** The application runs from source in [/opt/app]; the user's home
    is [/home/u]. *)
Definition env0 : Env :=
  {| home_dir := "/home/u";
     sys_frozen := false;
     sys_executable := "/usr/bin/python3";
     update_utils_file := "/opt/app/update_utils.py" |}.

Definition base_dirs : list (string * FS.node) :=
  [("/", FS.Dir); ("/home", FS.Dir); ("/home/u", FS.Dir);
   ("/opt", FS.Dir); ("/opt/app", FS.Dir); ("/tmp", FS.Dir)].

Definition world_of (entries : list (string * FS.node)) : World :=
  {| w_fs := list_to_map entries; w_extract := None; w_log := [] |}.

(** First run: neither a live data file nor a backup. *)
Definition w_first_run : World := world_of base_dirs.

(** A data file where the updater looks for it. *)
Definition w_live : World :=
  world_of (base_dirs ++
    [("/opt/app/data", FS.Dir);
     ("/opt/app/data/users.db", FS.File (bytes "users-v1"))]).


(** Releases as the metadata endpoint describes them. *)
Definition release (tag : string) : Json.json :=
  Json.JDict
    [("tag_name", Json.JStr tag);
     ("assets",
      Json.JList
        [Json.JDict [("name", Json.JStr "notes.txt");
                     ("browser_download_url", Json.JStr "https://example.org/notes.txt")];
         Json.JDict [("name", Json.JStr "simple-test-app.tar.gz");
                     ("browser_download_url",
                      Json.JStr "https://example.org/simple-test-app.tar.gz")]])].

(** An archive with two install scripts, and one with none. *)
Definition tree_two_installers : dtree :=
  DNode "simple-test-app-update" ["README"]
    [DNode "docs" ["install.txt"] [];
     DNode "pkg" ["app.py"; "install.sh"] [DNode "bin" ["install.sh"] []];
     DNode "extra" ["install.sh"] []].

Definition tree_no_installer : dtree :=
  DNode "simple-test-app-update" ["README"] [DNode "pkg" ["app.py"] []].

(** A server that announces [tag], a user who accepts, a download and
    an extraction that succeed and yield [tree], and an install script
    that exits with [rc] and changes nothing. *)
Definition externals (tag : string) (tree : dtree) (rc : Z) : Externals :=
  {| get_release := Ok (200, Ok (release tag));
     answer_yes := true;
     get_asset := λ _, Ok (200, [bytes "archive-"; bytes "bytes"], None);
     run_tar := λ _, (0, tree);
     run_install := λ _ m, (rc, m) |}.

(** The same, with a download whose stream breaks after one chunk. *)
Definition externals_broken_stream : Externals :=
  {| get_release := Ok (200, Ok (release "v1.0.1"));
     answer_yes := true;
     get_asset := λ _, Ok (200, [bytes "archive-"],
                           Some (RequestException "Connection broken"));
     run_tar := λ _, (0, tree_no_installer);
     run_install := λ _ m, (0, m) |}.




(** A stand-in for the SHA-256 digest in the examples. *)
Definition digest (password : string) : string := "sha256:" +:+ password.

Definition db_empty : Main.Db := {| Main.users := []; Main.users_seq := 0 |}.

(** [U1] registered, then [U2], at the given times. *)
Definition db_two (t1 t2 : string) : Main.Db :=
  let db1 := snd (Main.register_user digest Main.NoFault t1 db_empty
                    "U1" "secret1" "u1@example.org") in
  snd (Main.register_user digest Main.NoFault t2 db1 "U2" "secret2" "").

End Samples.

(* ================================================================== *)
(** * Properties *)
(* ================================================================== *)

Example join_home :
  Posixpath.join "/home/u" [".simple-test-app"; "backup"] = "/home/u/.simple-test-app/backup".
Proof. reflexivity. Qed.

Example dirname_file :
  Posixpath.dirname "/opt/app/update_utils.py" = "/opt/app".
Proof. reflexivity. Qed.

Example split_root : Posixpath.split "/usr" = ("/", "usr").
Proof. reflexivity. Qed.

Example split_trailing : Posixpath.split "/a/b/" = ("/a/b", "").
Proof. reflexivity. Qed.

Example str_of_Z_2 : Py.str_of_Z 2 = "2".
Proof. reflexivity. Qed.

(* ------------------------------------------------------------------ *)
(** ** Paths *)
(* ------------------------------------------------------------------ *)

Section PathFacts.

Lemma app_cons_str (x : ascii) (a b : string) :
  String x a +:+ b = String x (a +:+ b).
Proof. reflexivity. Qed.

Lemma chars_app (a b : string) :
  String.list_ascii_of_string (a +:+ b)
  = String.list_ascii_of_string a ++ String.list_ascii_of_string b.
Proof.
  induction a as [|c a IH]; [done|].
  rewrite app_cons_str. simpl. by rewrite IH.
Qed.

(** Two strings that are equal have equal tails of the same length. *)
Lemma app_tail_eq (a b c d : string) :
  String.length c = String.length d → a +:+ c = b +:+ d → c = d.
Proof.
  intros Hlen Heq.
  apply (f_equal String.list_ascii_of_string) in Heq.
  rewrite !chars_app in Heq.
  apply app_inj_2 in Heq as [_ Heq].
  - rewrite <- (String.string_of_list_ascii_of_string c),
      <- (String.string_of_list_ascii_of_string d). by rewrite Heq.
  - clear Heq. revert d Hlen.
    induction c as [|x c IH]; intros [|y d]; simpl; try done.
    intros [= H]. f_equal. by apply IH.
Qed.

Lemma app_assoc_str (a b c : string) : (a +:+ b) +:+ c = a +:+ (b +:+ c).
Proof.
  induction a as [|x a IH]; [done|].
  by rewrite !app_cons_str, IH.
Qed.

(** A relative component is appended, behind a separator or not. *)
Lemma join2_relative (path b : string) :
  Py.startswith b Posixpath.sep = false →
  Posixpath.join2 path b = path +:+ b ∨ Posixpath.join2 path b = path +:+ "/" +:+ b.
Proof.
  intros Hb. unfold Posixpath.join2. rewrite Hb.
  destruct (_ || _); [by left | by right].
Qed.

End PathFacts.

Lemma tail13_data_vs_app (x y : string) :
  x +:+ "data/users.db" ≠ y +:+ ".simple-test-app/users.db".
Proof.
  intros H.
  change (y +:+ ".simple-test-app/users.db")
    with (y +:+ (".simple-test" +:+ "-app/users.db")) in H.
  rewrite <- app_assoc_str in H.
  apply app_tail_eq in H; [discriminate | reflexivity].
Qed.

Lemma tails_differ_neq (n : nat) (A B x y : string) :
  tails_differ n A B = true → x +:+ A ≠ y +:+ B.
Proof.
  unfold tails_differ. intros Hc Heq.
  apply andb_prop in Hc as [Hc Hne]. apply andb_prop in Hc as [Ha Hb].
  apply Nat.leb_le in Ha, Hb.
  apply negb_true_iff, bool_decide_eq_false in Hne. apply Hne.
  apply (f_equal String.list_ascii_of_string) in Heq.
  rewrite !chars_app in Heq. apply (f_equal reverse) in Heq.
  rewrite !reverse_app in Heq. apply (f_equal (take n)) in Heq.
  by rewrite !take_app_le in Heq by done.
Qed.

(** Refutes an equation between two joined paths whose last components
    are literals: every way [join2] may have glued the components is
    tried, and the two sides are told apart on their last [n]
    characters. *)
Ltac join_cases p b :=
  let H := fresh "Hj" in
  destruct (join2_relative p b eq_refl) as [H|H]; rewrite H in *; clear H.

Ltac tail_neq n :=
  match goal with
  | H : ?x +:+ ?A = ?y +:+ ?B |- _ =>
      exact (tails_differ_neq n A B x y ltac:(vm_compute; reflexivity) H)
  end.

Ltac refute_tail n := repeat rewrite app_assoc_str in *; tail_neq n.

Lemma updater_path_not_store_path (app_dir home : string) :
  Posixpath.join app_dir ["data"; "users.db"]
  ≠ Posixpath.join (Posixpath.join home [".simple-test-app"]) ["users.db"].
Proof.
  unfold Posixpath.join; simpl. intros H.
  join_cases app_dir "data"; join_cases home ".simple-test-app";
    match type of H with
    | Posixpath.join2 ?p ?b = Posixpath.join2 ?q ?c =>
        join_cases p b; join_cases q c
    end; refute_tail 10%nat.
Qed.

(** C1. The updater's [get_db_path] never returns the path of the
    Record Store's backing file: whatever the home directory and the
    application directory are, the file that [backup_user_data] and
    [restore_user_data] treat as the live data file
    ([<app_dir>/data/users.db]) is not the file [Database] reads and
    writes ([<home>/.simple-test-app/users.db]), which is what
    [Database.get_db_path] returns whenever it returns. *)
Theorem C1_updater_live_path_is_not_the_store_path (e : Env) :
  String.eqb (UpdateUtils.get_db_path e) (Main.db_file e) = false
  ∧ ∀ m, match fst (Main.get_db_path e m) with
         | Ok p => p = Main.db_file e
         | Raise _ => True
         end.
Proof.
  split.
  - apply String.eqb_neq. unfold UpdateUtils.get_db_path, Main.db_file, Main.db_dir.
    apply updater_path_not_store_path.
  - intros m. unfold Main.get_db_path. by destruct (FS.makedirs _ _ _) as [[[]|ex] m'].
Qed.

(** C5. The two version literals are not the same string:
    [APP_VERSION] in [main.py] is 1.0.1 and [CURRENT_VERSION] in
    [update_utils.py] is 1.0.0. *)
Theorem C5_version_literals_differ :
  String.eqb Main.APP_VERSION UpdateUtils.CURRENT_VERSION = false
  ∧ Main.APP_VERSION = "1.0.1" ∧ UpdateUtils.CURRENT_VERSION = "1.0.0".
Proof. repeat split. Qed.

Example endswith_targz : Py.endswith "simple-test-app-1.0.1.tar.gz" ".tar.gz" = true.
Proof. reflexivity. Qed.

Example endswith_zip : Py.endswith "simple-test-app-1.0.1.zip" ".tar.gz" = false.
Proof. reflexivity. Qed.

(* ------------------------------------------------------------------ *)
(** ** The file system *)
(* ------------------------------------------------------------------ *)

Section FSFacts.
Implicit Types m : gmap string FS.node.

Lemma grows_refl m : grows_by_dirs m m.
Proof. intros p. by left. Qed.

Lemma grows_trans m1 m2 m3 :
  grows_by_dirs m1 m2 → grows_by_dirs m2 m3 → grows_by_dirs m1 m3.
Proof.
  intros H12 H23 p. destruct (H12 p) as [E1|[E1 E1']], (H23 p) as [E2|[E2 E2']].
  - left. congruence.
  - right. split; congruence.
  - right. split; congruence.
  - congruence.
Qed.

Lemma grows_keeps m m' p n :
  grows_by_dirs m m' → m !! p = Some n → m' !! p = Some n.
Proof. intros H Hp. destruct (H p) as [E|[E _]]; congruence. Qed.

Lemma grows_file m m' p c :
  grows_by_dirs m m' → m' !! p = Some (FS.File c) → m !! p = Some (FS.File c).
Proof. intros H Hp. destruct (H p) as [E|[_ E]]; congruence. Qed.

Lemma mkdir_grows p m r m' : FS.mkdir p m = (r, m') → grows_by_dirs m m'.
Proof.
  unfold FS.mkdir. destruct (m !! p) eqn:Hp.
  - intros [= <- <-]. apply grows_refl.
  - destruct (FS.parent_check m p); intros [= <- <-]; [|apply grows_refl].
    intros q. destruct (decide (p = q)) as [<-|Hne].
    + right. by rewrite lookup_insert_eq.
    + left. by rewrite lookup_insert_ne.
Qed.

Lemma mkdir_leaf_grows p ok m r m' :
  FS.mkdir_leaf p ok m = (r, m') → grows_by_dirs m m'.
Proof.
  unfold FS.mkdir_leaf. destruct (FS.mkdir p m) as [[u|e] m1] eqn:Hm.
  - intros [= <- <-]. eapply mkdir_grows, Hm.
  - destruct (_ || _); intros [= <- <-]; eapply mkdir_grows, Hm.
Qed.

Lemma makedirs_rec_grows depth : ∀ name ok m r m',
  FS.makedirs_rec depth name ok m = (r, m') → grows_by_dirs m m'.
Proof.
  induction depth as [|d IH]; intros name ok m r m'; simpl.
  { intros [= <- <-]. apply grows_refl. }
  destruct (Posixpath.split name) as [head tail].
  destruct (if String.eqb tail "" then Posixpath.split head else (head, tail))
    as [head' tail'].
  destruct (_ && _); [|apply mkdir_leaf_grows].
  destruct (FS.makedirs_rec d head' ok m) as [[u|e] m1] eqn:Hrec;
    apply IH in Hrec.
  - destruct (String.eqb tail' ".").
    + by intros [= <- <-].
    + intros H. apply mkdir_leaf_grows in H. eapply grows_trans; eauto.
  - destruct (is_FileExistsError e); [destruct (String.eqb tail' ".")|].
    + by intros [= <- <-].
    + intros H. apply mkdir_leaf_grows in H. eapply grows_trans; eauto.
    + by intros [= <- <-].
Qed.

Lemma makedirs_grows name ok m r m' :
  FS.makedirs name ok m = (r, m') → grows_by_dirs m m'.
Proof. apply makedirs_rec_grows. Qed.

End FSFacts.

Section FSFacts2.
Implicit Types m : gmap string FS.node.


(** [write_file] either stores the bytes at the path or raises and
    leaves the file system as it was. *)
Lemma write_file_cases p c m r m' :
  FS.write_file p c m = (r, m') →
  (r = Ok tt ∧ m' = <[p := FS.File c]> m ∧ FS.parent_check m p = Ok tt
     ∧ m !! p ≠ Some FS.Dir)
  ∨ ((∃ e, r = Raise e) ∧ m' = m).
Proof.
  unfold FS.write_file.
  destruct (m !! p) as [[c0|]|] eqn:Hp;
    try (destruct (FS.parent_check m p) as [[]|e] eqn:Hc);
    intros [= <- <-]; eauto 10;
    left; repeat split; congruence.
Qed.

(** [copy2] either raises and leaves the file system as it was, or
    writes the bytes of the source to a destination that is not the
    source. *)
Lemma copy2_cases src dst m r m' :
  FS.copy2 src dst m = (r, m') →
  ((∃ e, r = Raise e) ∧ m' = m)
  ∨ (∃ d c, r = Ok d ∧ d ≠ src ∧ m !! src = Some (FS.File c)
       ∧ d = (if FS.isdir m dst then Posixpath.join dst [Posixpath.basename src]
              else dst)
       ∧ m !! d ≠ Some FS.Dir
       ∧ m' = <[d := FS.File c]> m).
Proof.
  unfold FS.copy2.
  set (d := if FS.isdir m dst then _ else dst).
  destruct (String.eqb src d) eqn:Heq.
  { intros [= <- <-]. left. eauto. }
  apply String.eqb_neq in Heq.
  destruct (m !! src) as [[c|]|] eqn:Hsrc; try (intros [= <- <-]; left; by eauto).
  destruct (FS.write_file d c m) as [[u|e] m1] eqn:Hw; intros [= <- <-];
    apply write_file_cases in Hw as [(Hr & -> & Hpc & Hnd)|[[e' Hr] ->]];
    try discriminate.
  - right. exists d, c. repeat split; done.
  - left. eauto.
Qed.

End FSFacts2.

Section StringFacts.

Lemma app_nonempty (x t : string) : t ≠ "" → x +:+ t ≠ "".
Proof. destruct x; [done | by rewrite app_cons_str]. Qed.

Lemma eqb_empty_false (s : string) : s ≠ "" → String.eqb s "" = false.
Proof. by intros H; apply String.eqb_neq. Qed.

Lemma endswith_sep_app (x t : string) :
  t ≠ "" → Py.endswith (x +:+ t) "/" = Py.endswith t "/".
Proof.
  intros Ht. induction x as [|a x IH]; [done|].
  rewrite app_cons_str. simpl. rewrite IH.
  rewrite (eqb_empty_false (x +:+ t)) by by apply app_nonempty.
  by destruct (Ascii.eqb a "/").
Qed.

Lemma cut_last_sep_app (x t : string) :
  Posixpath.cut_last_sep t = ("", t) →
  Posixpath.cut_last_sep (x +:+ "/" +:+ t) = (x +:+ "/", t).
Proof.
  intros Ht. induction x as [|a x IH].
  - change ("" +:+ "/" +:+ t) with (String "/" t). simpl. by rewrite Ht.
  - rewrite !(app_cons_str a x). simpl. rewrite IH.
    destruct (x +:+ "/") eqn:Hx; [|done].
    by apply app_nonempty in Hx.
Qed.

Lemma all_sep_app_false (x t : string) :
  Posixpath.all_sep t = false → Posixpath.all_sep (x +:+ t) = false.
Proof.
  intros Ht. induction x as [|a x IH]; [done|].
  rewrite app_cons_str. simpl. by rewrite IH, andb_false_r.
Qed.

Lemma rstrip_app (chars y t : string) :
  Py.rstrip chars t ≠ "" → Py.rstrip chars (y +:+ t) = y +:+ Py.rstrip chars t.
Proof.
  intros Ht. induction y as [|a y IH]; [done|].
  rewrite !(app_cons_str a y). simpl. rewrite IH.
  destruct (y +:+ Py.rstrip chars t) eqn:Hy; [|done].
  by apply app_nonempty in Hy.
Qed.

(** The directory part of [x/name] is [x] when [x] ends in a
    character that is not a separator and [name] holds none. *)
Lemma dirname_child (y t name : string) :
  Posixpath.cut_last_sep name = ("", name) →
  Posixpath.all_sep (t +:+ "/") = false →
  Py.rstrip "/" (t +:+ "/") = t →
  Posixpath.dirname ((y +:+ t) +:+ "/" +:+ name) = y +:+ t.
Proof.
  intros Hname Hsep Hstrip. unfold Posixpath.dirname, Posixpath.split.
  rewrite cut_last_sep_app by done.
  assert (Hne : (y +:+ t) +:+ "/" ≠ "") by by apply app_nonempty.
  unfold Py.truthy_str. rewrite (eqb_empty_false _ Hne). simpl.
  rewrite app_assoc_str, (all_sep_app_false _ _ Hsep). simpl.
  change Posixpath.sep with "/".
  rewrite rstrip_app; rewrite Hstrip; [done|].
  intros ->. by vm_compute in Hsep.
Qed.

End StringFacts.

Section UpdaterPaths.
Variable e : Env.

Lemma backup_dir_shape : ∃ y, UpdateUtils.BACKUP_DIR e = y +:+ "backup".
Proof.
  unfold UpdateUtils.BACKUP_DIR, Posixpath.join. simpl.
  match goal with
  | |- ∃ y, Posixpath.join2 ?p ?b = _ =>
      destruct (join2_relative p b eq_refl) as [H|H]; rewrite H
  end; [by eexists|].
  rewrite <- app_assoc_str. by eexists.
Qed.

Lemma backup_path_shape :
  UpdateUtils.DB_BACKUP_PATH e = UpdateUtils.BACKUP_DIR e +:+ "/" +:+ "users.db".
Proof.
  unfold UpdateUtils.DB_BACKUP_PATH, Posixpath.join. simpl.
  destruct backup_dir_shape as [y ->].
  unfold Posixpath.join2. simpl.
  rewrite endswith_sep_app by done.
  by rewrite eqb_empty_false by by apply app_nonempty.
Qed.


End UpdaterPaths.

(* ------------------------------------------------------------------ *)
(** ** Backup and restore *)
(* ------------------------------------------------------------------ *)

Section BackupRestore.
Variable e : Env.
Implicit Types (w : World) (m : gmap string FS.node).

Let B := UpdateUtils.DB_BACKUP_PATH e.





End BackupRestore.

Example backup_first_run :
  fst (UpdateUtils.backup_user_data Samples.env0 Samples.w_first_run) = true.
Proof. vm_compute. reflexivity. Qed.

Example backup_live_copies :
  w_fs (snd (UpdateUtils.backup_user_data Samples.env0 Samples.w_live))
    !! "/home/u/.simple-test-app/backup/users.db"
  = Some (FS.File (Samples.bytes "users-v1")).
Proof. vm_compute. reflexivity. Qed.







(* ------------------------------------------------------------------ *)
(** ** The update check *)
(* ------------------------------------------------------------------ *)

Example lstrip_all_leading : Py.lstrip "v" "vv1.0.0" = "1.0.0".
Proof. reflexivity. Qed.

Example strip_one_leading : Spec.strip_leading_v "vv1.0.0" = "v1.0.0".
Proof. reflexivity. Qed.

(** C3, as stated, fails on a tag with two leading [v]: stripping one
    leading [v] from [vv1.0.0] leaves [v1.0.0], which is not empty and
    differs from the current version, yet [check_for_new_version]
    offers nothing, because [lstrip('v')] removes both. *)
Lemma C3_double_v_tag_offers_nothing :
  Spec.offers_update "vv1.0.0" UpdateUtils.CURRENT_VERSION = true
  ∧ UpdateUtils.check_for_new_version
      (Samples.externals "vv1.0.0" Samples.tree_no_installer 0)
      Samples.env0 Samples.w_live
    = (Returned, log (Print "You are running the latest version") Samples.w_live).
Proof. split; vm_compute; reflexivity. Qed.

(** C3, amended.  On a 200 response whose [tag_name] is a string,
    [check_for_new_version] removes every leading [v] from the tag and
    asks the user whether to update exactly when what is left is not
    empty and is, as a string, different from [CURRENT_VERSION]
    (1.0.0); the version offered and passed on to [update_application]
    is the stripped tag.  Otherwise nothing is offered. *)
Theorem C3_offer_iff_stripped_tag_differs
    (x : Externals) (e : Env) (w : World) (data : Json.json) (tag : string) :
  get_release x = Ok (200, Ok data) →
  Json.get data "tag_name" (Json.JStr "") = Ok (Json.JStr tag) →
  let latest_version := Py.lstrip "v" tag in
  let asked :=
    log (AskYesNo "Update Available" (UpdateUtils.update_prompt latest_version))
      (log (Print ("New version available: " +:+ latest_version)) w) in
  UpdateUtils.check_for_new_version x e w
  = if Py.truthy_str latest_version
       && negb (String.eqb latest_version UpdateUtils.CURRENT_VERSION)
    then if answer_yes x
         then UpdateUtils.update_application x e latest_version data asked
         else (Returned, asked)
    else (Returned, log (Print "You are running the latest version") w).
Proof.
  intros Hrel Htag. unfold UpdateUtils.check_for_new_version.
  unfold mbind, M_bind, lift. rewrite Hrel. simpl. rewrite Htag. simpl.
  destruct (_ && _); [|done].
  unfold say. simpl. destruct (answer_yes x); [|done].
  by destruct (UpdateUtils.update_application _ _ _ _ _).
Qed.

Lemma C3_offer_witness :
  (let x := Samples.externals "v1.0.1" Samples.tree_no_installer 0 in
   let asked :=
     log (AskYesNo "Update Available" (UpdateUtils.update_prompt "1.0.1"))
       (log (Print "New version available: 1.0.1") Samples.w_live) in
   UpdateUtils.check_for_new_version x Samples.env0 Samples.w_live
   = UpdateUtils.update_application x Samples.env0 "1.0.1"
       (Samples.release "v1.0.1") asked)
  ∧ UpdateUtils.check_for_new_version
      (Samples.externals "v1.0.0" Samples.tree_no_installer 0)
      Samples.env0 Samples.w_live
    = (Returned, log (Print "You are running the latest version") Samples.w_live).
Proof.
  split.
  - exact (C3_offer_iff_stripped_tag_differs
             (Samples.externals "v1.0.1" Samples.tree_no_installer 0)
             Samples.env0 Samples.w_live (Samples.release "v1.0.1") "v1.0.1"
             eq_refl eq_refl).
  - exact (C3_offer_iff_stripped_tag_differs
             (Samples.externals "v1.0.0" Samples.tree_no_installer 0)
             Samples.env0 Samples.w_live (Samples.release "v1.0.0") "v1.0.0"
             eq_refl eq_refl).
Defined.

(* ------------------------------------------------------------------ *)
(** ** What the steps of the update write to the log *)
(* ------------------------------------------------------------------ *)

Section Appends.
Context {P : event → bool}.

Lemma bind_unfold {A B} (c : M A) (f : A → M B) (w : World) :
  (c ≫= f) w
  = match c w with
    | (Ok a, w') => f a w'
    | (Raise ex, w') => (Raise ex, w')
    end.
Proof. reflexivity. Qed.

Lemma appends_same_log {A} (c : M A) :
  (∀ w r w', c w = (r, w') → w_log w' = w_log w) → appends P c.
Proof.
  intros H w r w' Hc. exists []. by rewrite app_nil_r, (H _ _ _ Hc).
Qed.

Lemma appends_ret {A} (a : A) : appends P (mret a).
Proof. apply appends_same_log. by intros w r w' [= _ <-]. Qed.

Lemma appends_lift {A} (r : result A) : appends P (lift r).
Proof. apply appends_same_log. by intros w r' w' [= _ <-]. Qed.

Lemma appends_on_fs {A} (f : gmap string FS.node → result A * gmap string FS.node) :
  appends P (on_fs f).
Proof.
  apply appends_same_log. intros w r w'. unfold on_fs.
  destruct (f (w_fs w)). by intros [= _ <-].
Qed.

Lemma appends_say (ev : event) : P ev = true → appends P (say ev).
Proof.
  intros HP w r w' [= _ <-]. exists [ev]. simpl. by rewrite HP.
Qed.

Lemma appends_bind {A B} (c : M A) (f : A → M B) :
  appends P c → (∀ a, appends P (f a)) → appends P (c ≫= f).
Proof.
  intros Hc Hf w r w'. rewrite bind_unfold.
  destruct (c w) as [[a|ex] w1] eqn:E; destruct (Hc _ _ _ E) as (evs1 & E1 & H1).
  - intros E2. destruct (Hf a _ _ _ E2) as (evs2 & E2' & H2).
    exists (evs1 ++ evs2).
    by rewrite E2', E1, app_assoc, forallb_app, H1, H2.
  - intros [= _ <-]. eauto.
Qed.

End Appends.

Section UpdateSteps.
Variables (x : Externals) (e : Env).

(** [restore_user_data] always prints its line. *)
Lemma restore_prints (w : World) :
  ∃ s, w_log (snd (UpdateUtils.restore_user_data e w)) = w_log w ++ [Print s]
       ∧ restore_line (Print s) = true.
Proof.
  unfold UpdateUtils.restore_user_data.
  destruct (FS.exists_ _ _); [|eexists; split; reflexivity].
  destruct (FS.makedirs _ _ _) as [[[]|ex] m1]; [|eexists; split; reflexivity].
  destruct (FS.copy2 _ _ _) as [[d|ex] m2]; eexists; split; reflexivity.
Qed.

Lemma backup_appends :
  appends before_install_only
    (λ w, let '(b, w') := UpdateUtils.backup_user_data e w in (Ok b, w')).
Proof.
  intros w r w'. unfold UpdateUtils.backup_user_data.
  destruct (FS.makedirs _ _ _) as [[[]|ex] m1].
  - destruct (FS.exists_ _ _); [destruct (FS.copy2 _ _ _) as [[d|ex] m2]|];
      intros [= _ <-]; eexists [_]; split; reflexivity.
  - intros [= _ <-]. eexists [_]; split; reflexivity.
Qed.

Lemma download_appends (url : Json.json) (path : string) :
  appends before_install_only (UpdateUtils.download x url path).
Proof.
  unfold UpdateUtils.download. destruct url; try apply appends_lift.
  apply appends_bind; [apply appends_lift|]. intros [[status chunks] broken].
  destruct (_ && _); [apply appends_lift|].
  apply appends_bind; [apply appends_on_fs|]. intros _.
  destruct broken; [apply appends_lift | apply appends_ret].
Qed.

Lemma check_exit_appends (cmd : list string) (rc : Z) :
  appends before_install_only (UpdateUtils.check_exit cmd rc).
Proof.
  unfold UpdateUtils.check_exit.
  destruct (rc =? 0); [apply appends_ret | apply appends_lift].
Qed.

Lemma extract_appends (path : string) :
  appends before_install_only (UpdateUtils.extract x path).
Proof.
  unfold UpdateUtils.extract.
  apply appends_bind.
  { apply appends_same_log. intros w r w' [= _ <-]. by destruct (w_extract w). }
  intros _. apply appends_bind.
  { apply appends_same_log. by intros w r w' [= _ <-]. }
  intros _. apply appends_bind; [by apply appends_say|].
  intros _. apply appends_bind; [|intros rc; apply check_exit_appends].
  apply appends_same_log. intros w r w'.
  destruct (run_tar x _). by intros [= _ <-].
Qed.

(** Nothing that belongs to the steps after the installation is
    logged before the installer is looked for. *)
Lemma fetch_appends (v : string) (data : Json.json) :
  appends before_install_only (UpdateUtils.fetch_and_extract x e v data).
Proof.
  unfold UpdateUtils.fetch_and_extract.
  apply appends_bind; [apply backup_appends|]. intros ok.
  destruct (negb ok).
  { apply appends_bind; [by apply appends_say | intros _; apply appends_ret]. }
  apply appends_bind; [apply appends_lift|]. intros assets.
  apply appends_bind; [apply appends_lift|]. intros items.
  apply appends_bind; [apply appends_lift|]. intros url.
  destruct (negb (Json.truthy url)).
  { apply appends_bind; [by apply appends_say | intros _; apply appends_ret]. }
  apply appends_bind; [by apply appends_say|]. intros _.
  apply appends_bind; [apply download_appends|]. intros _.
  apply appends_bind; [apply extract_appends|]. intros _.
  apply appends_ret.
Qed.

(** The script that was located has a name. *)
Lemma located_script_truthy (w : World) (script : string) :
  UpdateUtils.locate_installer w = Some script → Py.truthy_str script = true.
Proof.
  unfold UpdateUtils.locate_installer. destruct (w_extract w) as [t|]; [|done].
  induction (UpdateUtils.os_walk UpdateUtils.extract_dir t) as [|[[root dirs] files] rest IH];
    [done|]. simpl.
  case_bool_decide; [|done]. intros [= <-].
  unfold Py.truthy_str. apply negb_true_iff, eqb_empty_false.
  unfold Posixpath.join. simpl.
  destruct (join2_relative root "install.sh" eq_refl) as [-> | ->];
    by apply app_nonempty.
Qed.

End UpdateSteps.

Section FetchFacts.
Variables (x : Externals) (e : Env).

Lemma download_path_eq (v : string) :
  UpdateUtils.download_path v = "/tmp/simple-test-app-" +:+ v +:+ ".tar.gz".
Proof. reflexivity. Qed.

Lemma download_path_not_backup (v : string) :
  UpdateUtils.DB_BACKUP_PATH e ≠ UpdateUtils.download_path v.
Proof.
  rewrite backup_path_shape, download_path_eq. intros H.
  rewrite <- (app_assoc_str _ v) in H. tail_neq 7%nat.
Qed.

Lemma download_fs (url : Json.json) (path : string) (w : World) r w' (p : string) :
  UpdateUtils.download x url path w = (r, w') → p ≠ path →
  w_fs w' !! p = w_fs w !! p.
Proof.
  unfold UpdateUtils.download. intros H Hp. revert H.
  destruct url; try by intros [= _ <-].
  rewrite bind_unfold. unfold lift at 1.
  destruct (get_asset x s) as [[[status chunks] broken]|ex]; [|by intros [= _ <-]].
  destruct (_ && _); [by intros [= _ <-]|].
  rewrite bind_unfold. unfold on_fs at 1.
  destruct (FS.write_file path (concat chunks) (w_fs w)) as [r1 m1] eqn:Hw.
  assert (Hm : m1 !! p = w_fs w !! p).
  { apply write_file_cases in Hw as [(_ & -> & _)|[_ ->]]; [|done].
    by rewrite lookup_insert_ne. }
  destruct r1; [destruct broken|]; by intros [= _ <-].
Qed.

Lemma extract_fs (path : string) (w : World) r w' :
  UpdateUtils.extract x path w = (r, w') → w_fs w' = w_fs w.
Proof.
  unfold UpdateUtils.extract. rewrite !bind_unfold. cbn. rewrite bind_unfold.
  destruct (run_tar x _) as [rc t]. unfold UpdateUtils.check_exit.
  destruct (rc =? 0); intros [= _ <-]; by destruct (w_extract w).
Qed.

(** The download is the only step between the backup and the search
    for the installer that writes to the file system. *)
Lemma fetch_keeps_other_paths (v : string) (data : Json.json) (w w1 : World) (p : string) :
  UpdateUtils.fetch_and_extract x e v data w = (Ok (inr tt), w1) →
  p ≠ UpdateUtils.download_path v →
  w_fs w1 !! p = w_fs (snd (UpdateUtils.backup_user_data e w)) !! p.
Proof.
  unfold UpdateUtils.fetch_and_extract. rewrite bind_unfold.
  destruct (UpdateUtils.backup_user_data e w) as [ok wb]. simpl.
  destruct ok; simpl; [|by intros [=]].
  rewrite bind_unfold. unfold lift at 1.
  destruct (Json.get data "assets" _) as [assets|ex]; [|by intros [=]].
  rewrite bind_unfold. unfold lift at 1.
  destruct (Json.iter assets) as [items|ex]; [|by intros [=]].
  rewrite bind_unfold. unfold lift at 1.
  destruct (UpdateUtils.find_download_url items) as [url|ex]; [|by intros [=]].
  destruct (negb (Json.truthy url)); [by intros [=]|].
  rewrite bind_unfold. unfold say at 1. rewrite bind_unfold.
  destruct (UpdateUtils.download _ _ _ _) as [[[]|ex] wd] eqn:Hd; [|by intros [=]].
  rewrite bind_unfold.
  destruct (UpdateUtils.extract _ _ _) as [[[]|ex] we] eqn:He; [|by intros [=]].
  intros [= <-] Hp.
  by rewrite (extract_fs _ _ _ _ He), (download_fs _ _ _ _ _ _ Hd Hp).
Qed.

End FetchFacts.

(* ------------------------------------------------------------------ *)
(** ** The search for the installer *)
(* ------------------------------------------------------------------ *)

Example walk_order :
  map (λ entry, entry.1.1)
    (UpdateUtils.os_walk UpdateUtils.extract_dir Samples.tree_two_installers)
  = ["/tmp/simple-test-app-update"; "/tmp/simple-test-app-update/docs";
     "/tmp/simple-test-app-update/pkg"; "/tmp/simple-test-app-update/pkg/bin";
     "/tmp/simple-test-app-update/extra"].
Proof. reflexivity. Qed.

Example first_installer_found :
  UpdateUtils.find_install_script
    (UpdateUtils.os_walk UpdateUtils.extract_dir Samples.tree_two_installers)
  = Some "/tmp/simple-test-app-update/pkg/install.sh".
Proof. reflexivity. Qed.

Section InstallerSearch.
Implicit Types entries : list (string * list string * list string).



End InstallerSearch.

Section InstallAndFinish.
Variables (x : Externals) (e : Env).

Lemma install_and_finish_none (w1 : World) :
  UpdateUtils.locate_installer w1 = None →
  UpdateUtils.install_and_finish x e w1
  = (Ok (SystemExit 0), restored_and_notified e w1).
Proof.
  intros Hloc. unfold UpdateUtils.install_and_finish.
  rewrite !bind_unfold. rewrite Hloc. cbn.
  unfold restored_and_notified. rewrite bind_unfold. cbn. rewrite bind_unfold.
  by destruct (UpdateUtils.restore_user_data e _).
Qed.

Lemma install_and_finish_located (w1 : World) (script : string) (rc : Z)
    (m' : gmap string FS.node) :
  UpdateUtils.locate_installer w1 = Some script →
  run_install x script (w_fs w1) = (rc, m') →
  UpdateUtils.install_and_finish x e w1
  = if rc =? 0
    then (Ok (SystemExit 0), restored_and_notified e (installer_ran script m' w1))
    else (Raise (CalledProcessError (UpdateUtils.install_cmd script) rc),
          installer_ran script m' w1).
Proof.
  intros Hloc Hrun. unfold UpdateUtils.install_and_finish.
  rewrite !bind_unfold. rewrite Hloc. cbn.
  rewrite (located_script_truthy _ _ Hloc).
  repeat (rewrite bind_unfold; cbn). unfold on_fs. cbn. rewrite Hrun.
  unfold UpdateUtils.check_exit, installer_ran, restored_and_notified.
  destruct (rc =? 0); cbn; [|done].
  rewrite bind_unfold. cbn. rewrite bind_unfold.
  by destruct (UpdateUtils.restore_user_data e _).
Qed.

Lemma update_application_after_fetch (v : string) (data : Json.json) (w w1 : World) :
  UpdateUtils.fetch_and_extract x e v data w = (Ok (inr tt), w1) →
  UpdateUtils.update_application x e v data w
  = match UpdateUtils.install_and_finish x e w1 with
    | (Ok o, w') => (o, w')
    | (Raise ex, w') => (Returned, failure_reported ex w')
    end.
Proof.
  intros Hfetch. unfold UpdateUtils.update_application.
  by rewrite bind_unfold, Hfetch.
Qed.

End InstallAndFinish.

(** C2. When the steps up to the extraction have succeeded, an install
    script has been located and it exits with a status other than
    zero, [update_application] reports the failure of the install
    command in an error dialog and returns: the process does not exit,
    nothing is logged by a later step (no pause, no line of
    [restore_user_data], no completion dialog), and the file system is
    left as the script left it.  In particular, if the script did not
    touch the backup path, what [backup_user_data] put there at the
    start is still there. *)
Theorem C2_install_failure_aborts
    (x : Externals) (e : Env) (v : string) (data : Json.json) (w w1 : World)
    (script : string) (rc : Z) (m' : gmap string FS.node) :
  UpdateUtils.fetch_and_extract x e v data w = (Ok (inr tt), w1) →
  UpdateUtils.locate_installer w1 = Some script →
  run_install x script (w_fs w1) = (rc, m') →
  rc ≠ 0 →
  let failure := CalledProcessError (UpdateUtils.install_cmd script) rc in
  let w_end := failure_reported failure (installer_ran script m' w1) in
  UpdateUtils.update_application x e v data w = (Returned, w_end)
  ∧ (∃ evs, w_log w_end = w_log w ++ evs
            ∧ forallb before_install_only evs = true
            ∧ existsb error_dialog evs = true)
  ∧ w_fs w_end = m'
  ∧ (m' !! UpdateUtils.DB_BACKUP_PATH e = w_fs w1 !! UpdateUtils.DB_BACKUP_PATH e →
     w_fs w_end !! UpdateUtils.DB_BACKUP_PATH e
     = w_fs (snd (UpdateUtils.backup_user_data e w)) !! UpdateUtils.DB_BACKUP_PATH e).
Proof.
  intros Hfetch Hloc Hrun Hrc. cbv zeta. split; [|split; [|split]].
  - rewrite (update_application_after_fetch _ _ _ _ _ _ Hfetch).
    rewrite (install_and_finish_located _ _ _ _ _ _ Hloc Hrun).
    by apply Z.eqb_neq in Hrc as ->.
  - destruct (fetch_appends x e v data _ _ _ Hfetch) as (evs & Hlog & Hevs).
    eexists (evs ++ [_; _; _; _]). simpl. rewrite Hlog.
    rewrite <- !app_assoc. split; [reflexivity|].
    rewrite forallb_app, existsb_app, Hevs. split; [reflexivity|].
    simpl. by rewrite orb_true_r.
  - reflexivity.
  - simpl. intros ->.
    apply (fetch_keeps_other_paths _ _ _ _ _ _ _ Hfetch), download_path_not_backup.
Qed.

Lemma C2_install_failure_witness :
  let x := Samples.externals "v1.0.1" Samples.tree_two_installers 1 in
  let run := UpdateUtils.update_application x Samples.env0 "1.0.1"
               (Samples.release "v1.0.1") Samples.w_live in
  fst run = Returned
  ∧ w_fs (snd run) !! UpdateUtils.DB_BACKUP_PATH Samples.env0
    = Some (FS.File (Samples.bytes "users-v1")).
Proof.
  set (x := Samples.externals "v1.0.1" Samples.tree_two_installers 1).
  set (w1 := snd (UpdateUtils.fetch_and_extract x Samples.env0 "1.0.1"
                    (Samples.release "v1.0.1") Samples.w_live)).
  destruct (C2_install_failure_aborts x Samples.env0 "1.0.1"
              (Samples.release "v1.0.1") Samples.w_live w1
              "/tmp/simple-test-app-update/pkg/install.sh" 1 (w_fs w1))
    as (Hrun & _ & _ & Hbackup).
  - vm_compute. reflexivity.
  - vm_compute. reflexivity.
  - reflexivity.
  - discriminate.
  - cbv zeta. rewrite Hrun. split; [reflexivity|].
    cbn [snd]. rewrite (Hbackup eq_refl). vm_compute. reflexivity.
Defined.

Section WalkFacts.


Lemma restored_and_notified_log (e : Env) (w : World) :
  ∃ s, w_log (restored_and_notified e w)
       = w_log w ++ [Sleep 1; Print s;
                     ShowInfo "Update Complete"
                       ("Update completed successfully!" +:+ newline
                        +:+ "Please restart the application.")]
       ∧ restore_line (Print s) = true.
Proof.
  destruct (restore_prints e (log (Sleep 1) w)) as (s & Hlog & Hs).
  exists s. split; [|done]. unfold restored_and_notified. simpl.
  rewrite Hlog. simpl. by rewrite <- !app_assoc.
Qed.

End WalkFacts.



(* ------------------------------------------------------------------ *)
(** ** The record store *)
(* ------------------------------------------------------------------ *)

Example two_users_one_second_apart :
  (Main.get_users None
     (Samples.db_two "2025-01-01 12:00:00" "2025-01-01 12:00:01")).1
  = [("U2", Some "", "2025-01-01 12:00:01");
     ("U1", Some "u1@example.org", "2025-01-01 12:00:00")].
Proof. reflexivity. Qed.

Section Store.
Implicit Types (db : Main.Db) (rows : list Main.user_row).

Lemma not_taken_no_rows db name :
  Main.username_taken db name = false →
  filter (λ r, Main.username r = name) (Main.users db) = [].
Proof.
  unfold Main.username_taken. induction (Main.users db) as [|r rows IH]; [done|].
  simpl. intros [Hr Hrest]%orb_false_elim.
  apply String.eqb_neq in Hr. rewrite filter_cons_False by done. by apply IH.
Qed.

Lemma taken_after_append db name r :
  Main.username r = name →
  existsb (λ r, String.eqb (Main.username r) name) (Main.users db ++ [r]) = true.
Proof.
  intros <-. rewrite existsb_app. simpl.
  by rewrite String.eqb_refl, orb_true_r.
Qed.

Lemma insert_desc_perm r rows : Main.insert_desc r rows ≡ₚ r :: rows.
Proof.
  induction rows as [|x rows IH]; simpl; [done|].
  destruct (String.ltb _ _); [|done].
  by rewrite IH, Permutation_swap.
Qed.

Lemma order_by_perm rows : Main.order_by_created_at_desc rows ≡ₚ rows.
Proof.
  induction rows as [|r rows IH]; simpl; [done|].
  by rewrite insert_desc_perm, IH.
Qed.

Lemma ltb_false_leb (a b : string) : String.ltb a b = false → String.leb b a = true.
Proof.
  unfold String.ltb, String.leb. rewrite (String.compare_antisym b a).
  by destruct (String.compare a b).
Qed.

Lemma ltb_true_leb (a b : string) : String.ltb a b = true → String.leb a b = true.
Proof. unfold String.ltb, String.leb. by destruct (String.compare a b). Qed.

Lemma insert_desc_sorted r rows :
  Sorted Main.row_not_older rows → Sorted Main.row_not_older (Main.insert_desc r rows).
Proof.
  induction rows as [|x rows IH]; simpl; intros Hs.
  - by repeat constructor.
  - apply Sorted_inv in Hs as [Hs Hhd].
    destruct (String.ltb _ _) eqn:Hlt.
    + constructor; [by apply IH|].
      destruct rows as [|y rows]; simpl.
      * constructor. by apply ltb_true_leb.
      * destruct (String.ltb (Main.created_at r) (Main.created_at y));
          constructor; [by apply HdRel_inv in Hhd | by apply ltb_true_leb].
    + constructor; [by constructor|]. constructor. by apply ltb_false_leb.
Qed.

Lemma order_by_sorted rows : Sorted Main.row_not_older (Main.order_by_created_at_desc rows).
Proof.
  induction rows as [|r rows IH]; simpl; [constructor | by apply insert_desc_sorted].
Qed.

Lemma map_tuple_sorted rows :
  Sorted Main.row_not_older rows → Sorted Main.not_older (map Main.user_tuple rows).
Proof.
  induction 1 as [|r rows Hs IH Hhd]; simpl; constructor; [done|].
  destruct Hhd; simpl; by constructor.
Qed.

Lemma py_or_is_str (v : option string) : ∃ s, Main.py_or v (Some "") = Some s.
Proof.
  destruct v as [s|]; simpl; [|by eexists].
  destruct (Py.truthy_str s); by eexists.
Qed.

End Store.

(** C4. On a store without the user name, [register_user] succeeds and
    the store then holds exactly one row of that name; a second
    registration of the name, whatever the password and the email,
    returns the duplicate message "Username already exists!" and leaves
    the store as it was.  That message is never the text of the generic
    error ("Database error: ..."), and no call that fails changes the
    store. *)
Theorem C4_duplicate_username
    (sha256 : string → string) (db : Main.Db)
    (u p m p' m' now now' : string) :
  Main.username_taken db u = false →
  let first := Main.register_user sha256 Main.NoFault now db u p m in
  let second := Main.register_user sha256 Main.NoFault now' (snd first) u p' m' in
  fst first = (true, "User registered successfully!")
  ∧ Main.rows_named u (snd first) = 1%nat
  ∧ fst second = (false, "Username already exists!")
  ∧ snd second = snd first
  ∧ Main.rows_named u (snd second) = 1%nat
  ∧ (∀ msg, String.eqb "Username already exists!" ("Database error: " +:+ msg) = false)
  ∧ (∀ fault t d name pw mail msg d',
       Main.register_user sha256 fault t d name pw mail = ((false, msg), d') → d' = d).
Proof.
  intros Hfree. cbv zeta.
  assert (Hfirst : Main.register_user sha256 Main.NoFault now db u p m
            = ((true, "User registered successfully!"),
               {| Main.users := Main.users db
                    ++ [{| Main.id := Main.next_id db; Main.username := u;
                           Main.password_hash := Main.hash_password sha256 p;
                           Main.email := Some m; Main.created_at := now |}];
                  Main.users_seq := Main.next_id db |})).
  { unfold Main.register_user. by rewrite Hfree. }
  rewrite Hfirst. cbn [fst snd].
  assert (Hrows : Main.rows_named u
            {| Main.users := Main.users db
                 ++ [{| Main.id := Main.next_id db; Main.username := u;
                        Main.password_hash := Main.hash_password sha256 p;
                        Main.email := Some m; Main.created_at := now |}];
               Main.users_seq := Main.next_id db |} = 1%nat).
  { unfold Main.rows_named. simpl.
    rewrite filter_app, (not_taken_no_rows _ _ Hfree). simpl.
    by rewrite filter_cons_True. }
  assert (Hsecond : ∀ d, Main.username_taken d u = true →
            Main.register_user sha256 Main.NoFault now' d u p' m'
            = ((false, "Username already exists!"), d)).
  { intros d Hd. unfold Main.register_user. by rewrite Hd. }
  rewrite Hsecond by (by apply taken_after_append). cbn [fst snd].
  repeat split; try done.
  intros fault t d name pw mail msg d'. unfold Main.register_user.
  destruct fault, (Main.username_taken d name); by intros [= _ <-].
Qed.

Lemma C4_duplicate_username_witness :
  let first := Main.register_user Samples.digest Main.NoFault "2025-01-01 12:00:00"
                 Samples.db_empty "alice" "secret" "alice@example.org" in
  let second := Main.register_user Samples.digest Main.NoFault "2025-01-02 08:30:00"
                  (snd first) "alice" "other" "" in
  fst first = (true, "User registered successfully!")
  ∧ fst second = (false, "Username already exists!")
  ∧ Main.rows_named "alice" (snd second) = 1%nat.
Proof.
  destruct (C4_duplicate_username Samples.digest Samples.db_empty
              "alice" "secret" "alice@example.org" "other" ""
              "2025-01-01 12:00:00" "2025-01-02 08:30:00" eq_refl)
    as (H1 & _ & H2 & _ & H3 & _).
  exact (conj H1 (conj H2 H3)).
Defined.

(** C9, as stated, fails: [created_at] has a resolution of one second,
    and two users registered within the same second are listed in the
    order of their insertion, [U1] before [U2]. *)
Lemma C9_same_second_lists_oldest_first :
  map (λ t, t.1.1)
    (Main.get_users None
       (Samples.db_two "2025-01-01 12:00:00" "2025-01-01 12:00:00")).1
  = ["U1"; "U2"].
Proof. reflexivity. Qed.

(** C9, amended.  [get_users] returns one (username, email,
    created_at) tuple per row, ordered by [created_at], latest first;
    on a store without rows, and when the query fails, it returns the
    empty list.  After registering [U1] and then [U2] in an empty
    store, [U2] comes first when its [created_at] is later than that
    of [U1]. *)
Theorem C9_list_users_newest_first :
  (∀ seq, (Main.get_users None {| Main.users := []; Main.users_seq := seq |}).1 = [])
  ∧ (∀ msg db, (Main.get_users (Some msg) db).1 = [])
  ∧ (∀ db, Sorted Main.not_older (Main.get_users None db).1
           ∧ (Main.get_users None db).1 ≡ₚ map Main.user_tuple (Main.users db))
  ∧ (∀ (sha256 : string → string) seq u1 p1 m1 t1 u2 p2 m2 t2,
       u1 ≠ u2 → String.ltb t1 t2 = true →
       let db0 := {| Main.users := []; Main.users_seq := seq |} in
       let db1 := snd (Main.register_user sha256 Main.NoFault t1 db0 u1 p1 m1) in
       let db2 := snd (Main.register_user sha256 Main.NoFault t2 db1 u2 p2 m2) in
       (Main.get_users None db2).1
       = [(u2, Main.py_or (Some m2) (Some ""), t2);
          (u1, Main.py_or (Some m1) (Some ""), t1)]).
Proof.
  split; [done|]. split; [done|]. split.
  - intros db. simpl. split.
    + apply map_tuple_sorted, order_by_sorted.
    + by rewrite order_by_perm.
  - intros sha256 seq u1 p1 m1 t1 u2 p2 m2 t2 Hne Hlt. cbv zeta.
    unfold Main.register_user at 2. simpl.
    unfold Main.register_user, Main.username_taken. simpl.
    apply String.eqb_neq in Hne. rewrite Hne. simpl. by rewrite Hlt.
Qed.

Lemma C9_list_users_witness :
  (Main.get_users None
     (Samples.db_two "2025-01-01 12:00:00" "2025-01-01 12:00:01")).1
  = [("U2", Some "", "2025-01-01 12:00:01");
     ("U1", Some "u1@example.org", "2025-01-01 12:00:00")].
Proof.
  destruct C9_list_users_newest_first as (_ & _ & _ & H).
  exact (H Samples.digest 0 "U1" "secret1" "u1@example.org" "2025-01-01 12:00:00"
           "U2" "secret2" "" "2025-01-01 12:00:01"
           ltac:(discriminate) eq_refl).
Defined.

(** C10. Every tuple [get_users] returns has a string, never [None],
    in the email position, and for a row whose email is [NULL] or the
    empty string that string is empty; any other email is returned as
    it is stored. *)
Theorem C10_email_is_never_null (fault : option string) (db : Main.Db) :
  (∀ t, t ∈ (Main.get_users fault db).1 → ∃ s, t.1.2 = Some s)
  ∧ (∀ r, r ∈ Main.users db →
          Main.user_tuple r ∈ (Main.get_users None db).1
          ∧ (Main.email r = None ∨ Main.email r = Some "" →
             (Main.user_tuple r).1.2 = Some "")
          ∧ (∀ s, Main.email r = Some s → s ≠ "" →
                  (Main.user_tuple r).1.2 = Some s)).
Proof.
  split.
  - destruct fault as [msg|]; simpl; [by intros t ?%elem_of_nil|].
    intros t (r & -> & _)%list_elem_of_fmap. apply py_or_is_str.
  - intros r Hr. split; [|split].
    + simpl. apply list_elem_of_fmap. exists r. split; [done|].
      by rewrite order_by_perm.
    + unfold Main.user_tuple. by intros [-> | ->].
    + unfold Main.user_tuple. intros s -> Hs. simpl. unfold Py.truthy_str.
      by rewrite eqb_empty_false.
Qed.

Lemma C10_email_witness :
  let db := {| Main.users :=
                 [{| Main.id := 1; Main.username := "bob";
                     Main.password_hash := "x"; Main.email := None;
                     Main.created_at := "2025-01-01 12:00:00" |}];
               Main.users_seq := 1 |} in
  (Main.get_users None db).1 = [("bob", Some "", "2025-01-01 12:00:00")]
  ∧ ("bob", Some "", "2025-01-01 12:00:00") ∈ (Main.get_users None db).1.
Proof.
  cbv zeta. split; [reflexivity|].
  set (r := {| Main.id := 1; Main.username := "bob";
               Main.password_hash := "x"; Main.email := None;
               Main.created_at := "2025-01-01 12:00:00" |}).
  destruct (C10_email_is_never_null None
              {| Main.users := [r]; Main.users_seq := 1 |}) as [_ H].
  destruct (H r) as [Hin _]; [apply list_elem_of_here|exact Hin].
Defined.

(* ------------------------------------------------------------------ *)
(** ** [makedirs] terminates within its depth *)
(* ------------------------------------------------------------------ *)

Section MakedirsDepth.

Lemma cut_last_sep_length (p : string) :
  (String.length (Posixpath.cut_last_sep p).1
   + String.length (Posixpath.cut_last_sep p).2 = String.length p)%nat.
Proof.
  induction p as [|a p IH]; [done|]. simpl.
  destruct (Posixpath.cut_last_sep p) as [h t]. simpl in *.
  destruct h; [destruct (Ascii.eqb a "/")|]; simpl in *; lia.
Qed.

Lemma rstrip_length (chars s : string) :
  (String.length (Py.rstrip chars s) ≤ String.length s)%nat.
Proof.
  induction s as [|a s IH]; [done|]. simpl.
  destruct (Py.rstrip chars s); [destruct (Py.char_in a chars)|]; simpl in *; lia.
Qed.

Lemma split_length (p h t : string) :
  Posixpath.split p = (h, t) →
  (String.length h + String.length t ≤ String.length p)%nat.
Proof.
  unfold Posixpath.split. pose proof (cut_last_sep_length p) as Hlen.
  destruct (Posixpath.cut_last_sep p) as [h0 t0]. simpl in Hlen.
  destruct (_ && _); intros [= <- <-]; [|lia].
  pose proof (rstrip_length Posixpath.sep h0). lia.
Qed.

Lemma nonempty_length (s : string) :
  Py.truthy_str s = true → (0 < String.length s)%nat.
Proof. destruct s; [done | simpl; lia]. Qed.

Lemma mkdir_leaf_no_recursion_error name ok (m : gmap string FS.node) :
  (FS.mkdir_leaf name ok m).1 ≠ Raise RecursionError.
Proof.
  unfold FS.mkdir_leaf, FS.mkdir, FS.parent_check.
  destruct (m !! name); simpl.
  - by destruct (_ || _).
  - destruct (String.eqb _ _); [done|].
    destruct (m !! Posixpath.dirname name) as [[|]|]; simpl; try done;
      by destruct (_ || _).
Qed.

Lemma makedirs_rec_enough (depth : nat) : ∀ name ok (m : gmap string FS.node),
  (String.length name < depth)%nat →
  (FS.makedirs_rec depth name ok m).1 ≠ Raise RecursionError.
Proof.
  induction depth as [|d IH]; intros name ok m Hlen; [lia|]. simpl.
  destruct (Posixpath.split name) as [head tail] eqn:Hs.
  apply split_length in Hs.
  destruct (if String.eqb tail "" then Posixpath.split head else (head, tail))
    as [head' tail'] eqn:Hs'.
  assert (Hle : (String.length head' + String.length tail' ≤ String.length name)%nat).
  { destruct (String.eqb tail ""); [|injection Hs' as <- <-; lia].
    apply split_length in Hs'. lia. }
  destruct (Py.truthy_str head' && Py.truthy_str tail' && negb (FS.exists_ m head'))
    eqn:Hc; [|apply mkdir_leaf_no_recursion_error].
  apply andb_prop in Hc as [[_ Ht]%andb_prop _]. apply nonempty_length in Ht.
  specialize (IH head' ok m ltac:(lia)).
  destruct (FS.makedirs_rec d head' ok m) as [[u|ex] m1]; simpl in IH.
  - destruct (String.eqb tail' "."); [done | apply mkdir_leaf_no_recursion_error].
  - destruct ex; simpl; try done.
    destruct (String.eqb tail' "."); [done | apply mkdir_leaf_no_recursion_error].
Qed.

(** The depth [makedirs] starts with is never used up. *)
Lemma makedirs_no_recursion_error name ok (m : gmap string FS.node) :
  (FS.makedirs name ok m).1 ≠ Raise RecursionError.
Proof. apply makedirs_rec_enough. lia. Qed.

End MakedirsDepth.

(* ================================================================== *)
(** * Further properties of the record store *)
(* ================================================================== *)

Section StoreInvariants.
Implicit Types (db : Main.Db) (rows : list Main.user_row).

Lemma id_below_next rows (seq : Z) r :
  r ∈ rows → Main.id r < 1 + foldr (λ r acc, Z.max (Main.id r) acc) seq rows.
Proof.
  induction rows as [|x rows IH]; [by intros ?%elem_of_nil|].
  intros [->|Hin]%elem_of_cons; simpl; [lia|].
  specialize (IH Hin). lia.
Qed.

Lemma not_taken_not_in db name :
  Main.username_taken db name = false → name ∉ map Main.username (Main.users db).
Proof.
  unfold Main.username_taken. induction (Main.users db) as [|r rows IH]; simpl.
  - intros _ ?%elem_of_nil. done.
  - intros [Hr Hrest]%orb_false_elim. apply String.eqb_neq in Hr.
    intros [?|?]%elem_of_cons; [congruence | by apply IH].
Qed.

(** Whatever the connection does, [register_user] keeps user names and
    ids unique. *)
Theorem register_user_keeps_uniqueness (sha256 : string → string)
    (fault : Main.sqlite_fault) (now : string) db (name password mail : string) :
  let db' := (Main.register_user sha256 fault now db name password mail).2 in
  (Main.unique_usernames db → Main.unique_usernames db')
  ∧ (Main.unique_ids db → Main.unique_ids db').
Proof.
  unfold Main.register_user, Main.unique_usernames, Main.unique_ids.
  destruct fault; try done;
    destruct (Main.username_taken db name) eqn:Htaken; try done; cbn [snd].
  split; intros Hnd; simpl; rewrite map_app; simpl;
    apply NoDup_app; (split; [done|]); (split; [|apply NoDup_singleton]).
  - intros n Hn ->%list_elem_of_singleton. by apply (not_taken_not_in _ _ Htaken).
  - intros i (r & -> & Hr)%list_elem_of_fmap Hi%list_elem_of_singleton.
    pose proof (id_below_next _ (Main.users_seq db) _ Hr) as Hlt.
    unfold Main.next_id in Hi. lia.
Qed.

Lemma register_user_keeps_uniqueness_witness :
  Main.unique_usernames (Samples.db_two "2025-01-01 12:00:00" "2025-01-01 12:00:00")
  ∧ Main.unique_ids (Samples.db_two "2025-01-01 12:00:00" "2025-01-01 12:00:00").
Proof.
  set (db1 := (Main.register_user Samples.digest Main.NoFault "2025-01-01 12:00:00"
                 Samples.db_empty "U1" "secret1" "u1@example.org").2).
  destruct (register_user_keeps_uniqueness Samples.digest Main.NoFault
              "2025-01-01 12:00:00" Samples.db_empty "U1" "secret1" "u1@example.org")
    as [Hn1 Hi1].
  destruct (register_user_keeps_uniqueness Samples.digest Main.NoFault
              "2025-01-01 12:00:00" db1 "U2" "secret2" "") as [Hn2 Hi2].
  split.
  - apply Hn2, Hn1. constructor.
  - apply Hi2, Hi1. constructor.
Defined.

End StoreInvariants.

Section Listing.
Implicit Types (db : Main.Db) (rows : list Main.user_row).

(** A registration that succeeds adds exactly the new user to the
    listing, with the email as given and the time of the insert; one
    that fails leaves the listing as it was. *)
Theorem register_then_list (sha256 : string → string)
    (fault : Main.sqlite_fault) (now : string) db (name password mail : string) :
  let r := Main.register_user sha256 fault now db name password mail in
  if r.1.1
  then (Main.get_users None r.2).1 ≡ₚ (name, Some mail, now) :: (Main.get_users None db).1
  else (Main.get_users None r.2).1 = (Main.get_users None db).1.
Proof.
  unfold Main.register_user.
  destruct fault; try done; destruct (Main.username_taken db name);
    cbn [fst snd Main.get_users Main.users]; try done.
  rewrite !order_by_perm, fmap_app. cbn.
  rewrite <- Permutation_cons_append.
  unfold Main.user_tuple at 1. cbn.
  replace (if Py.truthy_str mail then Some mail else Some "") with (Some mail)
    by by destruct mail.
  done.
Qed.

Lemma insert_desc_newest r rows :
  Forall (λ x, Main.row_not_older r x) rows → Sorted Main.row_not_older rows →
  Main.insert_desc r rows = r :: rows.
Proof.
  destruct rows as [|x rows]; [done|]. intros [Hx _]%Forall_cons _. simpl.
  unfold Main.row_not_older in Hx.
  destruct (String.ltb _ _) eqn:Hlt; [|done]. exfalso.
  unfold String.ltb, String.leb in *.
  rewrite (String.compare_antisym (Main.created_at r)) in Hlt.
  by destruct (String.compare (Main.created_at x) (Main.created_at r)).
Qed.

(** A table whose rows are already in the order "newest first", rows
    of the same second included, is listed in the order of the table. *)
Theorem list_keeps_newest_first_table db :
  StronglySorted Main.row_not_older (Main.users db) →
  (Main.get_users None db).1 = map Main.user_tuple (Main.users db).
Proof.
  intros Hs. cbn. f_equal. induction Hs as [|r rows Hs IH Hall]; [done|].
  simpl. rewrite IH. apply insert_desc_newest; [done|].
  by apply StronglySorted_Sorted.
Qed.

Lemma list_keeps_newest_first_table_witness :
  (Main.get_users None
     (Samples.db_two "2025-01-01 12:00:00" "2025-01-01 12:00:00")).1
  = map Main.user_tuple
      (Main.users (Samples.db_two "2025-01-01 12:00:00" "2025-01-01 12:00:00")).
Proof.
  apply list_keeps_newest_first_table.
  repeat (constructor; [|repeat constructor]). constructor.
Defined.

Lemma insert_desc_oldest r rows :
  Forall (λ x, Main.strictly_older r x) rows →
  Main.insert_desc r rows = rows ++ [r].
Proof.
  induction 1 as [|x rows Hx _ IH]; [done|]. simpl.
  unfold Main.strictly_older in Hx. by rewrite Hx, IH.
Qed.

(** When every row was created strictly later than the rows before it,
    the listing is the table in reverse: the last user registered comes
    first. *)
Theorem list_reverses_insertion_order db :
  StronglySorted Main.strictly_older (Main.users db) →
  (Main.get_users None db).1 = map Main.user_tuple (reverse (Main.users db)).
Proof.
  intros Hs. cbn. f_equal. induction Hs as [|r rows Hs IH Hall]; [done|].
  simpl. rewrite IH, reverse_cons. apply insert_desc_oldest.
  by apply Forall_reverse.
Qed.

Lemma list_reverses_insertion_order_witness :
  let db := (Main.register_user Samples.digest Main.NoFault "2025-01-03 09:00:00"
               (Samples.db_two "2025-01-01 12:00:00" "2025-01-02 08:00:00")
               "U3" "secret3" "u3@example.org").2 in
  map (λ t, t.1.1) (Main.get_users None db).1 = ["U3"; "U2"; "U1"].
Proof.
  cbv zeta. rewrite list_reverses_insertion_order; [reflexivity|].
  repeat (constructor; [|repeat (constructor; try reflexivity)]). constructor.
Defined.

End Listing.

Section Version.
Implicit Types (s : Main.Store).

(** After [init_database] has run without error, [get_version]
    returns the compiled-in [APP_VERSION], whatever was stored before,
    [NULL] included; running [init_database] again changes nothing;
    it never touches the rows of [users] or another setting.  When the
    connection fails, [init_database] leaves the store as it was and
    [get_version] falls back to [APP_VERSION]. *)
Theorem init_database_then_get_version (db_path : string) s :
  let s1 := (Main.init_database None db_path s).1.2 in
  (Main.get_version None s1).1 = Some Main.APP_VERSION
  ∧ (Main.init_database None db_path s1).1.2 = s1
  ∧ Main.st_db s1 = Main.st_db s
  ∧ (∀ key, key ≠ "app_version" →
            Main.st_settings s1 !! key = Main.st_settings s !! key)
  ∧ (∀ msg, (Main.init_database (Some msg) db_path s).1 = (Some msg, s))
  ∧ (∀ msg, (Main.get_version (Some msg) s).1 = Some Main.APP_VERSION)
  ∧ (Main.st_settings s !! "app_version" = None →
     (Main.get_version None s).1 = Some Main.APP_VERSION).
Proof.
  cbn. repeat split.
  - unfold Main.get_version. cbn. by rewrite lookup_insert_eq.
  - by rewrite insert_insert_eq.
  - intros key Hkey. by rewrite lookup_insert_ne.
  - intros H. unfold Main.get_version. by rewrite H.
Qed.

Lemma init_database_then_get_version_witness :
  let fresh := {| Main.st_db := Samples.db_empty; Main.st_settings := ∅ |} in
  (Main.get_version None fresh).1 = Some Main.APP_VERSION
  ∧ (Main.get_version None
       (Main.init_database None "/home/u/.simple-test-app/users.db"
          {| Main.st_db := Samples.db_empty;
             Main.st_settings := {["app_version" := Some "0.9.0"]} |}).1.2).1
    = Some "1.0.1".
Proof.
  cbv zeta. split.
  - destruct (init_database_then_get_version ""
                {| Main.st_db := Samples.db_empty; Main.st_settings := ∅ |})
      as (_ & _ & _ & _ & _ & _ & H).
    apply H. reflexivity.
  - destruct (init_database_then_get_version "/home/u/.simple-test-app/users.db"
                {| Main.st_db := Samples.db_empty;
                   Main.st_settings := {["app_version" := Some "0.9.0"]} |})
      as [H _].
    exact H.
Defined.

(** A [NULL] value stored under [app_version] is handed to the caller
    as [None]: the fallback applies only when the row is missing. *)
Example get_version_null :
  (Main.get_version None
     {| Main.st_db := Samples.db_empty;
        Main.st_settings := {["app_version" := None]} |}).1 = None.
Proof. reflexivity. Qed.

End Version.

(* ================================================================== *)
(** * Further properties of the updater *)
(* ================================================================== *)

Section MorePaths.

Lemma length_app_str (a b : string) :
  String.length (a +:+ b) = (String.length a + String.length b)%nat.
Proof.
  induction a as [|x a IH]; [done|]. rewrite app_cons_str. simpl. by rewrite IH.
Qed.

(** A relative component joined to a path that ends in something other
    than a separator goes behind a separator. *)
Lemma join2_after_name (y t b : string) :
  t ≠ "" → Py.endswith t "/" = false → Py.startswith b "/" = false →
  Posixpath.join2 (y +:+ t) b = (y +:+ t) +:+ "/" +:+ b.
Proof.
  intros Ht Hend Hb. unfold Posixpath.join2. change Posixpath.sep with "/".
  rewrite Hb, endswith_sep_app, Hend by done.
  by rewrite eqb_empty_false by by apply app_nonempty.
Qed.

(** The last component of a path that ends in a name without
    separator ends in that name. *)
Lemma split_tail_suffix (y t : string) :
  Posixpath.cut_last_sep t = ("", t) →
  ∃ u, (Posixpath.split (y +:+ t)).2 = u +:+ t.
Proof.
  intros Ht.
  assert (H : ∃ u, (Posixpath.cut_last_sep (y +:+ t)).2 = u +:+ t).
  { induction y as [|a y [u IH]].
    - exists "". change ("" +:+ t) with t. by rewrite Ht.
    - rewrite app_cons_str. simpl.
      destruct (Posixpath.cut_last_sep (y +:+ t)) as [h t'] eqn:E. simpl in IH.
      destruct h; [destruct (Ascii.eqb a "/")|]; simpl; subst t'.
      + by exists u.
      + by exists (String a u).
      + by exists u. }
  destruct H as [u Hu]. exists u. unfold Posixpath.split.
  destruct (Posixpath.cut_last_sep (y +:+ t)) as [h t'].
  by destruct (_ && _).
Qed.

Lemma split_tail_plain (y t : string) :
  Posixpath.cut_last_sep t = ("", t) → (2 ≤ String.length t)%nat →
  let tail := (Posixpath.split (y +:+ t)).2 in
  String.eqb tail "" = false ∧ String.eqb tail "." = false.
Proof.
  intros Ht Hlen. destruct (split_tail_suffix y t Ht) as [u Hu]. cbv zeta.
  rewrite Hu. split; apply String.eqb_neq; intros H;
    apply (f_equal String.length) in H; rewrite length_app_str in H;
    simpl in H; lia.
Qed.

End MorePaths.

Section MoreMakedirs.
Implicit Types m : gmap string FS.node.

Lemma mkdir_leaf_ok_isdir name m m' :
  FS.mkdir_leaf name true m = (Ok tt, m') → m' !! name = Some FS.Dir.
Proof.
  unfold FS.mkdir_leaf, FS.mkdir.
  destruct (m !! name) as [n|] eqn:Hn; simpl.
  - unfold FS.isdir. rewrite Hn. destruct n; simpl; [done|]. by intros [= <-].
  - destruct (FS.parent_check m name); simpl.
    + intros [= <-]. apply lookup_insert_eq.
    + unfold FS.isdir. by rewrite Hn.
Qed.

(** When [makedirs] succeeds on a path whose last component is a plain
    name, the path is a directory afterwards. *)
Lemma makedirs_ok_isdir name m m' :
  String.eqb (Posixpath.split name).2 "" = false →
  String.eqb (Posixpath.split name).2 "." = false →
  FS.makedirs name true m = (Ok tt, m') → m' !! name = Some FS.Dir.
Proof.
  intros Hne Hdot. unfold FS.makedirs. simpl.
  destruct (Posixpath.split name) as [head tail]. simpl in Hne, Hdot.
  rewrite Hne.
  destruct (_ && _); [|apply mkdir_leaf_ok_isdir].
  destruct (FS.makedirs_rec _ head true m) as [[u|ex] m1].
  - rewrite Hdot. apply mkdir_leaf_ok_isdir.
  - destruct (is_FileExistsError ex); [|done].
    rewrite Hdot. apply mkdir_leaf_ok_isdir.
Qed.




End MoreMakedirs.

Section LivePaths.
Variable e : Env.






End LivePaths.







Lemma keep_their_source (e : Env) (w : World) :
  w_fs (UpdateUtils.restore_user_data e w).2 !! UpdateUtils.DB_BACKUP_PATH e
  = w_fs w !! UpdateUtils.DB_BACKUP_PATH e
  ∧ ∀ n, w_fs w !! UpdateUtils.get_db_path e = Some n →
         w_fs (UpdateUtils.backup_user_data e w).2 !! UpdateUtils.get_db_path e
         = Some n.
Proof.
  split.
  - unfold UpdateUtils.restore_user_data, FS.exists_.
    destruct (w_fs w !! UpdateUtils.DB_BACKUP_PATH e) as [n|] eqn:HB; [|done].
    destruct (FS.makedirs _ true (w_fs w)) as [[[]|ex] m1] eqn:Hmk;
      pose proof (makedirs_grows _ _ _ _ _ Hmk) as Hg;
      pose proof (grows_keeps _ _ _ _ Hg HB) as HB1; [|done].
    destruct (FS.copy2 _ _ m1) as [[d|ex] m2] eqn:Hcp; simpl;
      apply copy2_cases in Hcp
        as [[_ ->]|(d' & c' & _ & Hne & _ & _ & _ & ->)]; try done;
      by rewrite lookup_insert_ne.
  - intros n HL. unfold UpdateUtils.backup_user_data.
    destruct (FS.makedirs _ true (w_fs w)) as [[[]|ex] m1] eqn:Hmk;
      pose proof (makedirs_grows _ _ _ _ _ Hmk) as Hg;
      pose proof (grows_keeps _ _ _ _ Hg HL) as HL1; [|done].
    destruct (FS.exists_ m1 _); [|done].
    destruct (FS.copy2 _ _ m1) as [[d|ex] m2] eqn:Hcp; simpl;
      apply copy2_cases in Hcp
        as [[_ ->]|(d' & c' & _ & Hne & _ & _ & _ & ->)]; try done;
      by rewrite lookup_insert_ne.
Qed.

(** [restore_user_data] never changes what is at the backup path, and
    [backup_user_data] never changes what is at the live path. *)
Theorem backup_and_restore_keep_their_source (e : Env) (w : World) :
  w_fs (UpdateUtils.restore_user_data e w).2 !! UpdateUtils.DB_BACKUP_PATH e
  = w_fs w !! UpdateUtils.DB_BACKUP_PATH e
  ∧ ∀ n, w_fs w !! UpdateUtils.get_db_path e = Some n →
         w_fs (UpdateUtils.backup_user_data e w).2 !! UpdateUtils.get_db_path e
         = Some n.
Proof. apply keep_their_source. Qed.

Lemma backup_and_restore_keep_their_source_witness :
  w_fs (UpdateUtils.backup_user_data Samples.env0 Samples.w_live).2
    !! "/opt/app/data/users.db"
  = Some (FS.File (Samples.bytes "users-v1")).
Proof.
  destruct (backup_and_restore_keep_their_source Samples.env0 Samples.w_live)
    as [_ H].
  apply (H (FS.File (Samples.bytes "users-v1"))). vm_compute. reflexivity.
Defined.

Section QuietSteps.
Variables (x : Externals) (e : Env).

Lemma backup_quiet :
  appends quiet (λ w, let '(b, w') := UpdateUtils.backup_user_data e w in (Ok b, w')).
Proof.
  intros w r w'. unfold UpdateUtils.backup_user_data.
  destruct (FS.makedirs _ _ _) as [[[]|ex] m1].
  - destruct (FS.exists_ _ _); [destruct (FS.copy2 _ _ _) as [[d|ex] m2]|];
      intros [= _ <-]; eexists [_]; split; reflexivity.
  - intros [= _ <-]. eexists [_]; split; reflexivity.
Qed.

Lemma download_quiet (url : Json.json) (path : string) :
  appends quiet (UpdateUtils.download x url path).
Proof.
  unfold UpdateUtils.download. destruct url; try apply appends_lift.
  apply appends_bind; [apply appends_lift|]. intros [[status chunks] broken].
  destruct (_ && _); [apply appends_lift|].
  apply appends_bind; [apply appends_on_fs|]. intros _.
  destruct broken; [apply appends_lift | apply appends_ret].
Qed.

Lemma extract_quiet (path : string) :
  appends quiet (UpdateUtils.extract x path).
Proof.
  unfold UpdateUtils.extract.
  apply appends_bind.
  { apply appends_same_log. intros w r w' [= _ <-]. by destruct (w_extract w). }
  intros _. apply appends_bind.
  { apply appends_same_log. by intros w r w' [= _ <-]. }
  intros _. apply appends_bind; [by apply appends_say|].
  intros _. apply appends_bind.
  - apply appends_same_log. intros w r w'.
    destruct (run_tar x _). by intros [= _ <-].
  - intros rc. unfold UpdateUtils.check_exit.
    destruct (rc =? 0); [apply appends_ret | apply appends_lift].
Qed.

(** What [fetch_and_extract] logs: an early [return] ends with an error
    dialog after quiet events; every other ending has logged quiet
    events only. *)
Lemma fetch_log (v : string) (data : Json.json) (w : World) r w1 :
  UpdateUtils.fetch_and_extract x e v data w = (r, w1) →
  ∃ evs, w_log w1 = w_log w ++ evs
         ∧ match r with
           | Ok (inl o) =>
               o = Returned
               ∧ ∃ evs0 msg, evs = evs0 ++ [ShowError "Update Error" msg]
                             ∧ forallb quiet evs0 = true
           | _ => forallb quiet evs = true
           end.
Proof.
  unfold UpdateUtils.fetch_and_extract. rewrite bind_unfold.
  destruct (UpdateUtils.backup_user_data e w) as [ok wb] eqn:Hb.
  assert (Hbq : ∃ evs, w_log wb = w_log w ++ evs ∧ forallb quiet evs = true).
  { apply (backup_quiet w (Ok ok) wb). by rewrite Hb. }
  destruct Hbq as (evb & Hlb & Hqb). simpl.
  destruct ok; simpl.
  2:{ intros [= <- <-]. eexists. simpl. rewrite Hlb, <- app_assoc.
      split; [reflexivity|]. split; [done|]. by eexists _, _. }
  rewrite bind_unfold. unfold lift at 1.
  destruct (Json.get data "assets" _) as [assets|ex].
  2:{ intros [= <- <-]. by exists evb. }
  rewrite bind_unfold. unfold lift at 1.
  destruct (Json.iter assets) as [items|ex].
  2:{ intros [= <- <-]. by exists evb. }
  rewrite bind_unfold. unfold lift at 1.
  destruct (UpdateUtils.find_download_url items) as [url|ex].
  2:{ intros [= <- <-]. by exists evb. }
  destruct (negb (Json.truthy url)).
  { intros [= <- <-]. eexists. simpl. rewrite Hlb, <- app_assoc.
    split; [reflexivity|]. split; [done|]. by eexists _, _. }
  intros Hrest.
  assert (Hq : appends quiet
            (say (ShowInfo "Update" "Downloading update...");;
             UpdateUtils.download x url (UpdateUtils.download_path v);;
             UpdateUtils.extract x (UpdateUtils.download_path v);;
             mret (inr tt) : M (outcome + unit))).
  { apply appends_bind; [by apply appends_say|]. intros _.
    apply appends_bind; [apply download_quiet|]. intros _.
    apply appends_bind; [apply extract_quiet|]. intros _. apply appends_ret. }
  destruct (Hq _ _ _ Hrest) as (evs & Hl & Hqs).
  exists (evb ++ evs). rewrite Hl, Hlb, <- app_assoc. split; [done|].
  assert (Hall : forallb quiet (evb ++ evs) = true) by by rewrite forallb_app, Hqb, Hqs.
  revert Hrest. rewrite bind_unfold. unfold say at 1. rewrite bind_unfold.
  destruct (UpdateUtils.download x url _ _) as [[[]|ex] wd]; [|by intros [= <- _]].
  rewrite bind_unfold.
  destruct (UpdateUtils.extract x _ _) as [[[]|ex] we]; by intros [= <- _].
Qed.

End QuietSteps.

Section Endings.
Variables (x : Externals) (e : Env).

Lemma quiet_events (evs : list event) :
  forallb quiet evs = true →
  forallb before_install_only evs = true ∧ existsb error_dialog evs = false.
Proof.
  induction evs as [|ev evs IH]; [done|]. simpl.
  intros [Hq Hrest]%andb_prop. destruct (IH Hrest) as [-> ->].
  unfold quiet in Hq. apply andb_prop in Hq as [-> Hne].
  apply negb_true_iff in Hne. by rewrite Hne.
Qed.

(** [update_application] ends in one of two ways.  It exits, with
    status 0, after the pause, the line of [restore_user_data] and the
    completion dialog, and then no error dialog was shown.  Or it
    returns, and then an error dialog was shown and none of the steps
    after the installation was taken: no pause, no call of
    [restore_user_data], no completion dialog. *)
Theorem update_application_endings (v : string) (data : Json.json) (w : World) :
  let r := UpdateUtils.update_application x e v data w in
  ∃ evs, w_log r.2 = w_log w ++ evs
         ∧ match r.1 with
           | SystemExit code =>
               code = 0
               ∧ ∃ evs0 s, evs = evs0 ++ [Sleep 1; Print s; completion_dialog]
                           ∧ restore_line (Print s) = true
                           ∧ existsb error_dialog evs0 = false
                           ∧ forallb before_install_only evs0 = true
           | Returned =>
               existsb error_dialog evs = true
               ∧ forallb before_install_only evs = true
           end.
Proof.
  cbv zeta.
  destruct (UpdateUtils.fetch_and_extract x e v data w) as [r w1] eqn:Hfetch.
  destruct (fetch_log x e v data w r w1 Hfetch) as (evs1 & Hlog1 & Hr).
  destruct r as [[o|[]]|ex].
  - destruct Hr as (-> & evs0 & msg & -> & Hq%quiet_events).
    destruct Hq as [Hb He].
    unfold UpdateUtils.update_application. rewrite bind_unfold, Hfetch. cbn.
    eexists. split; [done|].
    by rewrite existsb_app, forallb_app, Hb, orb_true_r.
  - apply quiet_events in Hr as [Hb He].
    rewrite (update_application_after_fetch _ _ _ _ _ _ Hfetch).
    destruct (UpdateUtils.locate_installer w1) as [script|] eqn:Hloc.
    + destruct (run_install x script (w_fs w1)) as [rc m'] eqn:Hrun.
      rewrite (install_and_finish_located _ _ _ _ _ _ Hloc Hrun).
      destruct (rc =? 0) eqn:Hrc; cbn [fst snd].
      * destruct (restored_and_notified_log e (installer_ran script m' w1))
          as (s & Hlog & Hs).
        eexists. rewrite Hlog. simpl. rewrite Hlog1, <- !app_assoc.
        split; [reflexivity|]. split; [done|].
        exists (evs1 ++ [ShowInfo "Update" "Installing update...";
                         Run (UpdateUtils.install_cmd script)]), s.
        rewrite <- !app_assoc, existsb_app, forallb_app, Hb, He. by repeat split.
      * eexists. simpl. rewrite Hlog1, <- !app_assoc.
        split; [reflexivity|].
        rewrite existsb_app, forallb_app, Hb. simpl. by rewrite !orb_true_r.
    + rewrite (install_and_finish_none _ _ _ Hloc). cbn [fst snd].
      destruct (restored_and_notified_log e w1) as (s & Hlog & Hs).
      eexists. rewrite Hlog, Hlog1, <- !app_assoc.
      split; [reflexivity|]. split; [done|]. by exists evs1, s.
  - apply quiet_events in Hr as [Hb He].
    unfold UpdateUtils.update_application. rewrite bind_unfold, Hfetch. cbn.
    eexists. rewrite Hlog1, <- !app_assoc. split; [reflexivity|].
    rewrite existsb_app, forallb_app, Hb. simpl. by rewrite orb_true_r.
Qed.

End Endings.

Section BackupStays.
Variables (x : Externals) (e : Env).

(** However [fetch_and_extract] ends, the only path it has written to
    since the backup is that of the downloaded archive. *)
Lemma fetch_fs (v : string) (data : Json.json) (w : World) r w1 (p : string) :
  UpdateUtils.fetch_and_extract x e v data w = (r, w1) →
  p ≠ UpdateUtils.download_path v →
  w_fs w1 !! p = w_fs (UpdateUtils.backup_user_data e w).2 !! p.
Proof.
  unfold UpdateUtils.fetch_and_extract. rewrite bind_unfold.
  destruct (UpdateUtils.backup_user_data e w) as [ok wb]. simpl.
  destruct ok; simpl; [|by intros [= _ <-]].
  rewrite bind_unfold. unfold lift at 1.
  destruct (Json.get data "assets" _) as [assets|ex]; [|by intros [= _ <-]].
  rewrite bind_unfold. unfold lift at 1.
  destruct (Json.iter assets) as [items|ex]; [|by intros [= _ <-]].
  rewrite bind_unfold. unfold lift at 1.
  destruct (UpdateUtils.find_download_url items) as [url|ex]; [|by intros [= _ <-]].
  destruct (negb (Json.truthy url)); [by intros [= _ <-]|].
  rewrite bind_unfold. unfold say at 1. rewrite bind_unfold.
  destruct (UpdateUtils.download _ _ _ _) as [[[]|ex] wd] eqn:Hd.
  2:{ intros [= _ <-] Hp. by rewrite (download_fs _ _ _ _ _ _ _ Hd Hp). }
  rewrite bind_unfold.
  destruct (UpdateUtils.extract _ _ _) as [[[]|ex] we] eqn:He;
    intros [= _ <-] Hp;
    by rewrite (extract_fs _ _ _ _ _ He), (download_fs _ _ _ _ _ _ _ Hd Hp).
Qed.

(** Once [backup_user_data] has run, [update_application] never changes
    what is at the backup path: on every ending, success included, the
    backup is what the first step left there, as long as the install
    script itself leaves it alone. *)
Theorem update_never_changes_backup (v : string) (data : Json.json) (w : World) :
  (∀ script m,
      (run_install x script m).2 !! UpdateUtils.DB_BACKUP_PATH e
      = m !! UpdateUtils.DB_BACKUP_PATH e) →
  w_fs (UpdateUtils.update_application x e v data w).2 !! UpdateUtils.DB_BACKUP_PATH e
  = w_fs (UpdateUtils.backup_user_data e w).2 !! UpdateUtils.DB_BACKUP_PATH e.
Proof.
  intros Hscript.
  destruct (UpdateUtils.fetch_and_extract x e v data w) as [r w1] eqn:Hfetch.
  rewrite <- (fetch_fs _ _ _ _ _ _ Hfetch (download_path_not_backup e v)).
  destruct r as [[o|[]]|ex].
  - unfold UpdateUtils.update_application. by rewrite bind_unfold, Hfetch.
  - rewrite (update_application_after_fetch _ _ _ _ _ _ Hfetch).
    destruct (UpdateUtils.locate_installer w1) as [script|] eqn:Hloc.
    + destruct (run_install x script (w_fs w1)) as [rc m'] eqn:Hrun.
      rewrite (install_and_finish_located _ _ _ _ _ _ Hloc Hrun).
      pose proof (Hscript script (w_fs w1)) as Hm. rewrite Hrun in Hm.
      destruct (rc =? 0); cbn [fst snd]; [|done].
      unfold restored_and_notified. cbn [w_fs log].
      by rewrite (proj1 (keep_their_source e _)).
    + rewrite (install_and_finish_none _ _ _ Hloc). cbn [fst snd].
      unfold restored_and_notified. cbn [w_fs log].
      by rewrite (proj1 (keep_their_source e _)).
  - unfold UpdateUtils.update_application. by rewrite bind_unfold, Hfetch.
Qed.

End BackupStays.

Lemma update_never_changes_backup_witness :
  let x := Samples.externals "v1.0.1" Samples.tree_two_installers 0 in
  w_fs (UpdateUtils.update_application x Samples.env0 "1.0.1"
          (Samples.release "v1.0.1") Samples.w_live).2
    !! UpdateUtils.DB_BACKUP_PATH Samples.env0
  = Some (FS.File (Samples.bytes "users-v1")).
Proof.
  cbv zeta.
  rewrite (update_never_changes_backup
             (Samples.externals "v1.0.1" Samples.tree_two_installers 0)
             Samples.env0 "1.0.1" (Samples.release "v1.0.1") Samples.w_live).
  - vm_compute. reflexivity.
  - intros script m. reflexivity.
Defined.

Section Assets.
Implicit Types (asset : Json.json) (before after : list Json.json).

Lemma find_download_url_skips before rest :
  Forall skipped_asset before →
  UpdateUtils.find_download_url (before ++ rest) = UpdateUtils.find_download_url rest.
Proof.
  induction 1 as [|a before (name & Hname & Hend) _ IH]; [done|].
  simpl. rewrite Hname. simpl. by rewrite Hend.
Qed.

(** The loop over the assets looks at them in order and stops at the
    first whose name ends in [.tar.gz]: the result is that asset's
    [browser_download_url] (a [KeyError] when it has none), whatever
    follows it in the list.  With no such asset the result is [None].
    An asset without a usable [name] that comes before any package
    raises. *)
Theorem find_download_url_first_package before asset after :
  Forall skipped_asset before →
  (package_asset asset →
   UpdateUtils.find_download_url (before ++ asset :: after)
   = Json.getitem asset "browser_download_url")
  ∧ UpdateUtils.find_download_url before = Ok Json.JNull
  ∧ (∀ ex, Json.getitem asset "name" = Raise ex →
           UpdateUtils.find_download_url (before ++ asset :: after) = Raise ex).
Proof.
  intros Hbefore. repeat split.
  - intros (name & Hname & Hend). rewrite find_download_url_skips by done.
    simpl. rewrite Hname. simpl. by rewrite Hend.
  - rewrite <- (app_nil_r before). by rewrite find_download_url_skips.
  - intros ex Hex. rewrite find_download_url_skips by done. simpl. by rewrite Hex.
Qed.

Lemma find_download_url_first_package_witness :
  UpdateUtils.find_download_url
    [Json.JDict [("name", Json.JStr "notes.txt")];
     Json.JDict [("name", Json.JStr "app.tar.gz");
                 ("browser_download_url", Json.JStr "https://example.org/app.tar.gz")];
     Json.JNull]
  = Ok (Json.JStr "https://example.org/app.tar.gz").
Proof.
  destruct (find_download_url_first_package
              [Json.JDict [("name", Json.JStr "notes.txt")]]
              (Json.JDict [("name", Json.JStr "app.tar.gz");
                           ("browser_download_url",
                            Json.JStr "https://example.org/app.tar.gz")])
              [Json.JNull]) as [H _].
  - constructor; [|constructor]. by exists "notes.txt".
  - apply H. by exists "app.tar.gz".
Defined.

End Assets.

Section Aborts.
Variables (x : Externals) (e : Env).

(** Once the backup has succeeded and a download URL has been found,
    what is left of [fetch_and_extract] is the download and the
    extraction. *)
Lemma fetch_from_download (v : string) (data assets url : Json.json)
    (items : list Json.json) (w : World) :
  (UpdateUtils.backup_user_data e w).1 = true →
  Json.get data "assets" (Json.JList []) = Ok assets →
  Json.iter assets = Ok items →
  UpdateUtils.find_download_url items = Ok url →
  UpdateUtils.fetch_and_extract x e v data w
  = if Json.truthy url
    then (UpdateUtils.download x url (UpdateUtils.download_path v);;
          UpdateUtils.extract x (UpdateUtils.download_path v);;
          mret (inr tt))
           (log (ShowInfo "Update" "Downloading update...")
              (UpdateUtils.backup_user_data e w).2)
    else (Ok (inl Returned),
          log (ShowError "Update Error" "No update package found")
            (UpdateUtils.backup_user_data e w).2).
Proof.
  intros Hb Hassets Hitems Hurl. unfold UpdateUtils.fetch_and_extract.
  rewrite bind_unfold.
  destruct (UpdateUtils.backup_user_data e w) as [ok wb]. simpl in *. subst ok.
  simpl. rewrite bind_unfold. unfold lift at 1. rewrite Hassets.
  rewrite bind_unfold. unfold lift at 1. rewrite Hitems.
  rewrite bind_unfold. unfold lift at 1. rewrite Hurl.
  by destruct (Json.truthy url).
Qed.

(** When the release lists no asset whose name ends in [.tar.gz] (or
    lists no assets at all), [update_application] shows "No update
    package found" and returns: nothing is downloaded or extracted,
    and the world is as the backup left it, the dialog apart. *)
Theorem no_package_aborts_after_backup (v : string) (data assets : Json.json)
    (items : list Json.json) (w : World) :
  (UpdateUtils.backup_user_data e w).1 = true →
  Json.get data "assets" (Json.JList []) = Ok assets →
  Json.iter assets = Ok items →
  Forall skipped_asset items →
  UpdateUtils.update_application x e v data w
  = (Returned,
     log (ShowError "Update Error" "No update package found")
       (UpdateUtils.backup_user_data e w).2).
Proof.
  intros Hb Hassets Hitems Hskip.
  assert (Hurl : UpdateUtils.find_download_url items = Ok Json.JNull).
  { rewrite <- (app_nil_r items). by rewrite find_download_url_skips. }
  unfold UpdateUtils.update_application. rewrite bind_unfold.
  by rewrite (fetch_from_download v data assets Json.JNull items w).
Qed.

End Aborts.

Lemma no_package_aborts_after_backup_witness :
  let x := Samples.externals "v1.0.1" Samples.tree_no_installer 0 in
  let data := Json.JDict [("tag_name", Json.JStr "v1.0.1")] in
  UpdateUtils.update_application x Samples.env0 "1.0.1" data Samples.w_live
  = (Returned,
     log (ShowError "Update Error" "No update package found")
       (UpdateUtils.backup_user_data Samples.env0 Samples.w_live).2).
Proof.
  cbv zeta.
  apply (no_package_aborts_after_backup _ Samples.env0 "1.0.1" _ (Json.JList []) []).
  - vm_compute. reflexivity.
  - reflexivity.
  - reflexivity.
  - constructor.
Defined.

Section DownloadAndExtract.
Variables (x : Externals) (e : Env).

(** A download that fails aborts the update with an error dialog.  A
    request that raises or answers with a status from 400 to 599
    writes nothing.  A stream that breaks after the file was opened
    leaves the file behind with the chunks received so far: it is not
    cleaned up. *)
Theorem download_failure_aborts (v url : string) (data assets : Json.json)
    (items : list Json.json) (w : World) :
  (UpdateUtils.backup_user_data e w).1 = true →
  Json.get data "assets" (Json.JList []) = Ok assets →
  Json.iter assets = Ok items →
  UpdateUtils.find_download_url items = Ok (Json.JStr url) →
  Py.truthy_str url = true →
  let started := log (ShowInfo "Update" "Downloading update...")
                   (UpdateUtils.backup_user_data e w).2 in
  (∀ ex, get_asset x url = Raise ex →
         UpdateUtils.update_application x e v data w
         = (Returned, failure_reported ex started))
  ∧ (∀ status chunks broken,
       get_asset x url = Ok (status, chunks, broken) →
       (400 <=? status) && (status <? 600) = true →
       UpdateUtils.update_application x e v data w
       = (Returned, failure_reported (HTTPError status) started))
  ∧ (∀ status chunks ex m',
       get_asset x url = Ok (status, chunks, Some ex) →
       (400 <=? status) && (status <? 600) = false →
       FS.write_file (UpdateUtils.download_path v) (concat chunks) (w_fs started)
       = (Ok tt, m') →
       UpdateUtils.update_application x e v data w
       = (Returned, failure_reported ex (set_fs m' started))
       ∧ m' !! UpdateUtils.download_path v = Some (FS.File (concat chunks))).
Proof.
  intros Hb Hassets Hitems Hurl Htruthy. cbv zeta.
  assert (Hfetch := fetch_from_download x e v data assets (Json.JStr url) items w
                      Hb Hassets Hitems Hurl).
  cbn [Json.truthy] in Hfetch. rewrite Htruthy in Hfetch.
  unfold UpdateUtils.update_application. rewrite bind_unfold, Hfetch.
  rewrite bind_unfold. unfold UpdateUtils.download. rewrite bind_unfold.
  split; [|split].
  - by intros ex ->.
  - intros status chunks broken -> Hrange. unfold lift at 1. cbv beta iota.
    by rewrite Hrange.
  - intros status chunks ex m' -> Hrange Hw. unfold lift at 1. cbv beta iota.
    rewrite Hrange.
    rewrite bind_unfold. unfold on_fs at 1. rewrite Hw. split; [done|].
    apply write_file_cases in Hw as [(_ & -> & _)|[[? [=]] _]].
    apply lookup_insert_eq.
Qed.


End DownloadAndExtract.

Lemma download_failure_aborts_witness :
  let r := UpdateUtils.update_application Samples.externals_broken_stream
             Samples.env0 "1.0.1" (Samples.release "v1.0.1") Samples.w_live in
  r.1 = Returned
  ∧ w_fs r.2 !! "/tmp/simple-test-app-1.0.1.tar.gz"
    = Some (FS.File (Samples.bytes "archive-")).
Proof.
  cbv zeta.
  set (started := log (ShowInfo "Update" "Downloading update...")
                    (UpdateUtils.backup_user_data Samples.env0 Samples.w_live).2).
  set (m' := (FS.write_file (UpdateUtils.download_path "1.0.1")
                (Samples.bytes "archive-") (w_fs started)).2).
  destruct (download_failure_aborts Samples.externals_broken_stream Samples.env0
              "1.0.1" "https://example.org/simple-test-app.tar.gz"
              (Samples.release "v1.0.1")
              (Json.JList
                 [Json.JDict [("name", Json.JStr "notes.txt");
                              ("browser_download_url",
                               Json.JStr "https://example.org/notes.txt")];
                  Json.JDict [("name", Json.JStr "simple-test-app.tar.gz");
                              ("browser_download_url",
                               Json.JStr "https://example.org/simple-test-app.tar.gz")]])
              _ Samples.w_live
              ltac:(vm_compute; reflexivity) eq_refl eq_refl eq_refl eq_refl)
    as (_ & _ & H).
  destruct (H 200 [Samples.bytes "archive-"]
              (RequestException "Connection broken") m'
              eq_refl eq_refl ltac:(vm_compute; reflexivity)) as [Hrun Hfile].
  rewrite Hrun. split; [reflexivity|]. exact Hfile.
Defined.


Section DataSurvives.
Variables (x : Externals) (e : Env).




End DataSurvives.




Section Recreate.
Variable e : Env.




End Recreate.


Section StoreDirectory.
Variable e : Env.

Lemma db_dir_shape : ∃ y, Main.db_dir e = y +:+ ".simple-test-app".
Proof.
  unfold Main.db_dir, Posixpath.join. simpl.
  destruct (join2_relative (home_dir e) ".simple-test-app" eq_refl) as [-> | ->].
  - by eexists.
  - rewrite <- app_assoc_str. by eexists.
Qed.

(** When [Database.get_db_path] returns, the directory of the path it
    returns is a directory, so the database file can be created there;
    whether it returns or raises, it has created or changed no file. *)
Theorem get_db_path_makes_directory (m : gmap string FS.node) :
  let r := Main.get_db_path e m in
  (∀ p, r.1 = Ok p → r.2 !! Posixpath.dirname p = Some FS.Dir)
  ∧ ∀ q c, r.2 !! q = Some (FS.File c) ↔ m !! q = Some (FS.File c).
Proof.
  cbv zeta. unfold Main.get_db_path.
  destruct (FS.makedirs (Main.db_dir e) true m) as [[[]|ex] m'] eqn:Hmk;
    pose proof (makedirs_grows _ _ _ _ _ Hmk) as Hg; cbn [fst snd].
  - split.
    + intros p [= <-]. unfold Main.db_file, Posixpath.join. simpl.
      destruct db_dir_shape as [y Hy]. rewrite Hy in *.
      rewrite join2_after_name by done. rewrite dirname_child by done.
      destruct (split_tail_plain y ".simple-test-app" eq_refl ltac:(simpl; lia))
        as [H1 H2].
      by apply (makedirs_ok_isdir _ m).
    + intros q c. split; [by apply grows_file | by apply grows_keeps].
  - split; [done|].
    intros q c. split; [by apply grows_file | by apply grows_keeps].
Qed.

End StoreDirectory.

Lemma get_db_path_makes_directory_witness :
  let r := Main.get_db_path Samples.env0 (w_fs Samples.w_first_run) in
  r.1 = Ok "/home/u/.simple-test-app/users.db"
  ∧ r.2 !! "/home/u/.simple-test-app" = Some FS.Dir.
Proof.
  cbv zeta. split; [vm_compute; reflexivity|].
  destruct (get_db_path_makes_directory Samples.env0 (w_fs Samples.w_first_run))
    as [H _].
  apply (H "/home/u/.simple-test-app/users.db"). vm_compute. reflexivity.
Defined.
